(** * PZWorkshopInspector: the interactive client [tester.py]

    A shallow embedding of [src/tester.py] and the proofs of its behavioural
    contract.  The program is a read-send-print loop: it reads a line at the
    prompt, posts it to a fixed local endpoint and prints the answer.

    Modelling choices.
    - A Python [str] is a [string]; a character is read as the code point
      of the same number (U+0000 to U+00FF), and [isspace] and [lower] are
      Python's on that range.
    - The console and the network are an explicit [World]: the chronological
      list of observable events (prompts, printed lines, HTTP requests), the
      behaviour of the remote endpoint, given as the outcome of the n-th
      HTTP call, and the encoding of the console.
    - [print] writes a line when the console's encoding has all its
      characters, and raises [UnicodeEncodeError] otherwise, with nothing
      written.  Every console encoding has the characters below U+0080, so
      the program's own messages always come out; a stream that is closed
      is not modelled.
    - A Python exception is a value [exn]; a computation either returns or
      raises, and the world it leaves behind is kept in both cases.
    - Standard input is a list of input events, one per call of [input]; when
      the list is used up the program is waiting at the prompt. *)

From Stdlib Require Import Bool Arith ZArith List Lia.
From Stdlib Require Import Strings.Ascii Strings.String.
From Stdlib Require Import Numbers.DecimalString Numbers.DecimalPos Numbers.DecimalZ.
Import ListNotations.

Local Open Scope string_scope.
Local Open Scope list_scope.

(** ** Python strings *)

Module PyStr.

(** [str.isspace] on one character: the code points below U+0100 that
    Python counts as whitespace (TAB..CR, FS..US, SPACE, NEL, NBSP). *)
Definition isspace (c : ascii) : bool :=
  let n := nat_of_ascii c in
  (((9 <=? n) && (n <=? 13)) || ((28 <=? n) && (n <=? 31))
   || (n =? 32) || (n =? 133) || (n =? 160))%nat.

(** [s.lstrip()] *)
Fixpoint lstrip (s : string) : string :=
  match s with
  | EmptyString => EmptyString
  | String c s' => if isspace c then lstrip s' else s
  end.

(** [s.rstrip()] *)
Fixpoint rstrip (s : string) : string :=
  match s with
  | EmptyString => EmptyString
  | String c s' =>
      match rstrip s' with
      | EmptyString => if isspace c then EmptyString else String c EmptyString
      | t => String c t
      end
  end.

(** [s.strip()]: leading and trailing whitespace removed. *)
Definition strip (s : string) : string := rstrip (lstrip s).

(** [str.lower] on one character: A..Z and the upper-case letters of the
    Latin-1 block (U+00C0..U+00DE without the multiplication sign U+00D7)
    move 32 places up; every other character is kept. *)
Definition lower_char (c : ascii) : ascii :=
  let n := nat_of_ascii c in
  if (((65 <=? n) && (n <=? 90))
      || ((192 <=? n) && (n <=? 222) && negb (n =? 215)))%nat
  then ascii_of_nat (n + 32)
  else c.

(** [s.lower()] *)
Fixpoint lower (s : string) : string :=
  match s with
  | EmptyString => EmptyString
  | String c s' => String (lower_char c) (lower s')
  end.

(** [s * n] *)
Fixpoint repeat (s : string) (n : nat) : string :=
  match n with
  | O => EmptyString
  | S n' => s ++ repeat s n'
  end.

(** [str(i)] for an [int]: the decimal numeral, with a minus sign when
    negative. *)
Definition of_int (i : Z) : string := NilZero.string_of_int (Z.to_int i).

(** Truth value of a string in a condition: non-empty. *)
Definition truthy (s : string) : bool :=
  match s with
  | EmptyString => false
  | String _ _ => true
  end.

(** Every character of [s] is whitespace. *)
Fixpoint all_space (s : string) : bool :=
  match s with
  | EmptyString => true
  | String c s' => isspace c && all_space s'
  end.

(** First and last character, when there is one. *)
Definition first_char (s : string) : option ascii :=
  match s with
  | EmptyString => None
  | String c _ => Some c
  end.

Fixpoint last_char (s : string) : option ascii :=
  match s with
  | EmptyString => None
  | String c s' =>
      match last_char s' with
      | None => Some c
      | Some d => Some d
      end
  end.

End PyStr.

(** ** Exceptions, requests, responses *)

(** A raised Python exception: whether it is an instance of the class
    [Exception] (what [except Exception] catches; [KeyboardInterrupt] and
    [SystemExit] are not), and its text [str(e)]. *)
Record exn : Type := mkExn {
  exn_is_Exception : bool;
  exn_str : string
}.

(** ** The encoding of the console *)

(** The encodings a console can have, as far as the characters of the model
    go: [ascii], a code page (a charmap codec such as cp1252 or cp437, given
    by the characters above U+007F it has), or an encoding that has every
    character (utf-8, latin-1).  Errors are handled strictly, which is the
    default of standard output. *)
Inductive Console : Type :=
| AsciiConsole
| CharmapConsole (table : ascii -> bool)
| UnicodeConsole.

Definition is_ascii (c : ascii) : bool := (nat_of_ascii c <? 128)%nat.

(** Whether the console's encoding has the character [c]. *)
Definition can_encode (con : Console) (c : ascii) : bool :=
  is_ascii c
  || match con with
     | AsciiConsole => false
     | CharmapConsole table => table c
     | UnicodeConsole => true
     end.

(** Whether the console can write the string [s]: all of it encodes. *)
Fixpoint writable (con : Console) (s : string) : bool :=
  match s with
  | EmptyString => true
  | String c s' => can_encode con c && writable con s'
  end.

(** Name of the codec and reason it gives, as they appear in the text of
    the error. *)
Definition codec_name (con : Console) : string :=
  match con with
  | AsciiConsole => "ascii"
  | CharmapConsole _ => "charmap"
  | UnicodeConsole => "utf-8"
  end.

Definition codec_reason (con : Console) : string :=
  match con with
  | AsciiConsole => "ordinal not in range(128)"
  | CharmapConsole _ => "character maps to <undefined>"
  | UnicodeConsole => "surrogates not allowed"
  end.

Definition hex_digit (n : nat) : ascii :=
  match get n "0123456789abcdef" with
  | Some c => c
  | None => "0"%char
  end.

(** Two lower-case hexadecimal digits, as in [\xe9]. *)
Definition hex2 (c : ascii) : string :=
  let n := nat_of_ascii c in
  String (hex_digit (n / 16)) (String (hex_digit (n mod 16)) EmptyString).

(** Number of characters at the start of [s] that do not encode. *)
Fixpoint bad_run (con : Console) (s : string) : nat :=
  match s with
  | EmptyString => 0
  | String c s' => if can_encode con c then 0 else S (bad_run con s')
  end.

(** The first run of characters that do not encode, from position [pos] on:
    where it starts, its first character and its length. *)
Fixpoint first_bad (con : Console) (s : string) (pos : nat)
  : option (nat * ascii * nat) :=
  match s with
  | EmptyString => None
  | String c s' =>
      if can_encode con c then first_bad con s' (S pos)
      else Some (pos, c, S (bad_run con s'))
  end.

(** [str(e)] for the [UnicodeEncodeError] that encoding [s] raises: it names
    the codec, the first run of characters that do not encode (one character
    with its code, or the positions of several) and the reason. *)
Definition encode_error_text (con : Console) (s : string) : string :=
  match first_bad con s 0 with
  | Some (pos, c, 1) =>
      "'" ++ codec_name con ++ "' codec can't encode character '\x"
      ++ hex2 c ++ "' in position " ++ PyStr.of_int (Z.of_nat pos)
      ++ ": " ++ codec_reason con
  | Some (pos, _, n) =>
      "'" ++ codec_name con ++ "' codec can't encode characters in position "
      ++ PyStr.of_int (Z.of_nat pos) ++ "-"
      ++ PyStr.of_int (Z.of_nat (pos + n - 1))
      ++ ": " ++ codec_reason con
  | None => EmptyString
  end.

(** The exception, an instance of [Exception] ([UnicodeEncodeError] is a
    [ValueError]). *)
Definition UnicodeEncodeError (con : Console) (s : string) : exn :=
  mkExn true (encode_error_text con s).

Inductive Method : Type := GET | POST.

(** An outgoing HTTP request: method, address and form fields. The [data]
    dictionary is kept as the list of its (name, value) items. *)
Record Request : Type := mkRequest {
  req_method : Method;
  req_url : string;
  req_data : list (string * string)
}.

(** [requests.Response], as far as the program reads it. *)
Record Response : Type := mkResponse {
  status_code : Z;
  text : string
}.

(** What one HTTP call does: it returns a response or raises. *)
Inductive PostOutcome : Type :=
| Responds (r : Response)
| PostRaises (e : exn).

(** What one call of [input] does: it returns the line typed (without its
    newline) or raises ([EOFError], [KeyboardInterrupt]). *)
Inductive InputEvent : Type :=
| Line (s : string)
| InputRaises (e : exn).

(** ** The world: console and network *)

Inductive Event : Type :=
| EvPrompt (s : string)      (* prompt written by [input], no newline *)
| EvPrint (s : string)       (* one [print] call *)
| EvPost (r : Request).      (* one call of [requests.post]: a request issued *)

(** The remote endpoint: the outcome of the n-th HTTP call (from 0), which
    may depend on the request. *)
Definition Network : Type := nat -> Request -> PostOutcome.

Record World : Type := mkWorld {
  network : Network;
  console : Console;
  out : list Event
}.

(** The requests among a list of events, in order. *)
Fixpoint posts (l : list Event) : list Request :=
  match l with
  | [] => []
  | EvPost r :: l' => r :: posts l'
  | _ :: l' => posts l'
  end.

(** The printed lines among a list of events, in order. *)
Fixpoint printed (l : list Event) : list string :=
  match l with
  | [] => []
  | EvPrint s :: l' => s :: printed l'
  | _ :: l' => printed l'
  end.

Definition emit (e : Event) (w : World) : World :=
  mkWorld (network w) (console w) (out w ++ [e]).

(** ** Computations that may raise *)

Inductive Result (A : Type) : Type :=
| Ok (a : A)
| Raise (e : exn).
Arguments Ok {A} a.
Arguments Raise {A} e.

Definition IO (A : Type) : Type := World -> Result A * World.

Definition ret {A} (a : A) : IO A := fun w => (Ok a, w).

Definition bind {A B} (m : IO A) (k : A -> IO B) : IO B :=
  fun w =>
    match m w with
    | (Ok a, w') => k a w'
    | (Raise e, w') => (Raise e, w')
    end.

Declare Scope io_scope.
Delimit Scope io_scope with io.
Notation "x <- m ;; k" := (bind m (fun x => k))
  (at level 61, m at next level, right associativity) : io_scope.
Notation "m ;; k" := (bind m (fun _ => k))
  (at level 61, right associativity) : io_scope.
Local Open Scope io_scope.

(** [try: body / except Exception as e: handler e].  Only instances of
    [Exception] are caught; the events of the body before the raise stay. *)
Definition try_except_Exception {A} (body : IO A) (handler : exn -> IO A)
  : IO A :=
  fun w =>
    match body w with
    | (Ok a, w') => (Ok a, w')
    | (Raise e, w') =>
        if exn_is_Exception e then handler e w' else (Raise e, w')
    end.

(** [print(s)]: the line is written when the console can encode it;
    otherwise encoding it raises and nothing is written. *)
Definition print (s : string) : IO unit :=
  fun w =>
    if writable (console w) s
    then (Ok tt, emit (EvPrint s) w)
    else (Raise (UnicodeEncodeError (console w) s), w).

(** [requests.post(url, data=data)]: the request goes out, and the endpoint
    decides the outcome from the number of earlier requests and this one. *)
Definition requests_post (url : string) (data : list (string * string))
  : IO Response :=
  fun w =>
    let r := mkRequest POST url data in
    let w' := emit (EvPost r) w in
    match network w (List.length (posts (out w))) r with
    | Responds resp => (Ok resp, w')
    | PostRaises e => (Raise e, w')
    end.

(** [input(prompt)], given what this call of [input] does.  The prompt is
    written as it is: the program's one prompt has only characters that
    every console encodes. *)
Definition input (prompt : string) (ev : InputEvent) : IO string :=
  fun w =>
    let w' := emit (EvPrompt prompt) w in
    match ev with
    | Line s => (Ok s, w')
    | InputRaises e => (Raise e, w')
    end.

(** ** The program *)

Definition ANALYZE_URL : string := "http://localhost:4567/analyze".

(** [send_url_to_server(url)] *)
Definition send_url_to_server (url : string) : IO unit :=
  try_except_Exception
    (response <- requests_post ANALYZE_URL [("url", url)] ;;
     if (status_code response =? 200)%Z then
       print "Server Response:" ;;
       print (PyStr.repeat "-" 40) ;;
       print (PyStr.strip (text response)) ;;
       print (PyStr.repeat "-" 40)
     else
       print ("Error occurred while sending the request. Response code: "
              ++ PyStr.of_int (status_code response)))
    (fun e => print ("An error occurred: " ++ exn_str e)).

(** The two states of the loop. *)
Inductive LoopState : Type :=
| AwaitingInput
| Terminated.

(** One pass through the body of [while True], given what [input] does in
    it; the result is the state the loop is left in: [Terminated] after
    [break], [AwaitingInput] when the loop goes round again. *)
Definition loop_body (ev : InputEvent) : IO LoopState :=
  line <- input "URL: " ev ;;
  let url := PyStr.strip line in
  if PyStr.lower url =? "exit" then
    print "Exiting..." ;;
    ret Terminated
  else if PyStr.truthy url then
    send_url_to_server url ;;
    ret AwaitingInput
  else
    print "Please enter a valid URL." ;;
    ret AwaitingInput.

(** [while True: ...] over the input events still to come.  The loop is left
    by [break] (result [Ok Terminated]) or by an exception that nothing
    catches (result [Raise e]).  With no event left the prompt has been
    written and the program waits for a line: the result [Ok AwaitingInput]
    stands for a run that has not ended. *)
Fixpoint loop (stdin : list InputEvent) : IO LoopState :=
  fun w =>
    match stdin with
    | [] => (Ok AwaitingInput, emit (EvPrompt "URL: ") w)
    | ev :: rest =>
        match loop_body ev w with
        | (Ok AwaitingInput, w') => loop rest w'
        | (Ok Terminated, w') => (Ok Terminated, w')
        | (Raise e, w') => (Raise e, w')
        end
    end.

(** [main()]: the banner, then the loop.  [Ok Terminated] is the normal
    return of [main]; [Raise e] is [e] reaching the caller of [main], which
    ends the process. *)
Definition main (stdin : list InputEvent) : IO LoopState :=
  print "Enter a URL to analyze (or type 'exit' to quit):" ;;
  loop stdin.

(** ** Vocabulary of the statements *)

(** The world [w] with the events [evs] added at the end. *)
Definition extend (w : World) (evs : list Event) : World :=
  mkWorld (network w) (console w) (out w ++ evs).

(** The events a computation adds when started in [w] (computations only
    ever add events at the end). *)
Definition events_of {A} (m : IO A) (w : World) : list Event :=
  skipn (List.length (out w)) (out (snd (m w))).

(** The request the program sends for the string [url]. *)
Definition request_for (url : string) : Request :=
  mkRequest POST ANALYZE_URL [("url", url)].

(** What the endpoint does with the next request, when it is for [url]. *)
Definition next_outcome (w : World) (url : string) : PostOutcome :=
  network w (List.length (posts (out w))) (request_for url).


(** An endpoint whose failures are all instances of [Exception] with a
    description that the console [con] can write. *)
Definition reports_failures (con : Console) (net : Network) : Prop :=
  forall n r e,
    net n r = PostRaises e ->
    exn_is_Exception e = true /\ writable con (exn_str e) = true.

(** The delimiter line. *)
Definition dashes : string := "----------------------------------------".

(** A typed line that is the exit command: trimmed and lower-cased it reads
    [exit]. *)
Definition is_exit (line : string) : bool :=
  PyStr.lower (PyStr.strip line) =? "exit".




(** ** Sample exceptions, endpoints and worlds, for the examples *)

Definition EOFError : exn := mkExn true "EOF when reading a line".
Definition ConnectionError : exn := mkExn true "Connection refused".
Definition KeyboardInterrupt : exn := mkExn false "".

Definition endpoint_safe : Network :=
  fun _ _ => Responds (mkResponse 200 "  Result: safe  ").
Definition endpoint_404 : Network :=
  fun _ _ => Responds (mkResponse 404 "Not Found").
Definition endpoint_down : Network :=
  fun _ _ => PostRaises ConnectionError.

(** The world at program start: nothing written or sent yet. *)
Definition fresh (net : Network) : World := mkWorld net UnicodeConsole [].

(** The same on a console with the encoding [con]. *)
Definition fresh_on (con : Console) (net : Network) : World :=
  mkWorld net con [].

Definition endpoint_accented : Network :=
  fun _ _ =>
    Responds (mkResponse 200
                (String "R" (String "233" ("sultat : s" ++ String "251" "r")))).

Definition endpoint_blank : Network :=
  fun _ _ => Responds (mkResponse 200 "   ").
Definition endpoint_interrupted : Network :=
  fun _ _ => PostRaises KeyboardInterrupt.

(** The strings a session of typed lines has sent: the trimmed forms of the
    lines before the first exit command, blank lines left out. *)
Fixpoint urls_before_exit (lines : list string) : list string :=
  match lines with
  | [] => []
  | l :: rest =>
      if is_exit l then []
      else if PyStr.truthy (PyStr.strip l)
           then PyStr.strip l :: urls_before_exit rest
           else urls_before_exit rest
  end.

(** ** Strings: what [strip] and [lower] do *)

Module PyStrFacts.
Import PyStr.
Local Open Scope string_scope.

(** [lstrip] cuts a whitespace prefix and leaves the rest as it is. *)
Lemma lstrip_split (s : string) :
  exists pre, s = pre ++ lstrip s /\ all_space pre = true.
Proof.
  induction s as [|c s [pre [E A]]]; simpl.
  - exists ""; split; reflexivity.
  - destruct (isspace c) eqn:Hc.
    + exists (String c pre); simpl. rewrite Hc, A.
      split; [congruence | reflexivity].
    + exists ""; split; reflexivity.
Qed.

Lemma lstrip_first (s : string) (c : ascii) :
  first_char (lstrip s) = Some c -> isspace c = false.
Proof.
  induction s as [|d s IH]; simpl; [discriminate|].
  destruct (isspace d) eqn:Hd; [exact IH|].
  simpl. intros [= <-]. exact Hd.
Qed.

(** [rstrip] cuts a whitespace suffix and leaves the rest as it is. *)
Lemma rstrip_split (s : string) :
  exists post, s = rstrip s ++ post /\ all_space post = true.
Proof.
  induction s as [|c s [post [E A]]]; simpl.
  - exists ""; split; reflexivity.
  - destruct (rstrip s) as [|d t] eqn:Hr.
    + destruct (isspace c) eqn:Hc.
      * exists (String c post); simpl in *. rewrite Hc, A.
        split; [congruence | reflexivity].
      * exists post; simpl in *. split; congruence.
    + exists post; simpl in *. split; congruence.
Qed.

Lemma rstrip_last (s : string) (c : ascii) :
  last_char (rstrip s) = Some c -> isspace c = false.
Proof.
  revert c; induction s as [|d s IH]; simpl; intros c; [discriminate|].
  destruct (rstrip s) as [|x t] eqn:Hr.
  - destruct (isspace d) eqn:Hd; simpl; [discriminate|].
    intros [= <-]. exact Hd.
  - change (last_char (String d (String x t)))
      with (match last_char (String x t) with
            | None => Some d | Some z => Some z end).
    destruct (last_char (String x t)) as [z|] eqn:Hl.
    + intros [= <-]. apply IH. reflexivity.
    + simpl in Hl. destruct (last_char t); discriminate.
Qed.

Lemma rstrip_first (s : string) (c : ascii) :
  first_char (rstrip s) = Some c -> first_char s = Some c.
Proof.
  destruct s as [|d s]; simpl; [discriminate|].
  destruct (rstrip s); [destruct (isspace d)|]; simpl; congruence.
Qed.

(** The specification of [strip]: the line is a run of whitespace, then the
    result, then a run of whitespace, and the result neither begins nor
    ends with whitespace. *)
Lemma strip_spec (s : string) :
  (exists pre post,
      s = pre ++ strip s ++ post
      /\ all_space pre = true /\ all_space post = true)
  /\ (forall c, first_char (strip s) = Some c -> isspace c = false)
  /\ (forall c, last_char (strip s) = Some c -> isspace c = false).
Proof.
  unfold strip. repeat split.
  - destruct (lstrip_split s) as [pre [E A]].
    destruct (rstrip_split (lstrip s)) as [post [E' A']].
    exists pre, post. repeat split; try assumption.
    rewrite <- E'. exact E.
  - intros c H. apply (lstrip_first s). apply rstrip_first. exact H.
  - intros c H. apply (rstrip_last (lstrip s)). exact H.
Qed.

(** A line without whitespace at either end is sent as it is. *)
Lemma lstrip_id (s : string) :
  (forall c, first_char s = Some c -> isspace c = false) -> lstrip s = s.
Proof.
  destruct s as [|c s]; simpl; [reflexivity|].
  intros H. rewrite (H c eq_refl). reflexivity.
Qed.

Lemma rstrip_id (s : string) :
  (forall c, last_char s = Some c -> isspace c = false) -> rstrip s = s.
Proof.
  induction s as [|c s IH]; simpl; [reflexivity|].
  intros H. destruct (last_char s) as [d|] eqn:Hl.
  - rewrite IH by exact H. destruct s; [discriminate|reflexivity].
  - destruct s as [|x t]; simpl in *.
    + rewrite (H c eq_refl). reflexivity.
    + destruct (last_char t); discriminate.
Qed.

Lemma strip_idempotent (s : string) : strip (strip s) = strip s.
Proof.
  destruct (strip_spec s) as [_ [F L]].
  unfold strip at 1. rewrite (lstrip_id _ F). apply rstrip_id, L.
Qed.

(** A line that begins with whitespace is changed by [strip]. *)
Lemma strip_changes_leading (c : ascii) (s : string) :
  isspace c = true -> strip (String c s) <> String c s.
Proof.
  intros Hc E. destruct (strip_spec (String c s)) as [_ [F _]].
  rewrite E in F. specialize (F c eq_refl). congruence.
Qed.

Lemma truthy_true (s : string) : truthy s = true <-> s <> "".
Proof. destruct s; simpl; split; congruence. Qed.

End PyStrFacts.

(** ** Worlds and events *)

Lemma emit_extend (e : Event) (w : World) : emit e w = extend w [e].
Proof. reflexivity. Qed.

Lemma extend_extend (w : World) (a b : list Event) :
  extend (extend w a) b = extend w (a ++ b).
Proof. unfold extend; simpl. rewrite <- app_assoc. reflexivity. Qed.

Lemma out_extend (w : World) (evs : list Event) :
  out (extend w evs) = out w ++ evs.
Proof. reflexivity. Qed.

Lemma skipn_length_app {A} (l l' : list A) :
  skipn (List.length l) (l ++ l') = l'.
Proof. induction l as [|x l IH]; simpl; auto. Qed.

(** When a computation ends in [extend w evs], it added exactly [evs]. *)
Lemma events_of_extend {A} (m : IO A) (w : World) (r : Result A)
      (evs : list Event) :
  m w = (r, extend w evs) -> events_of m w = evs.
Proof.
  intros E. unfold events_of. rewrite E. simpl. apply skipn_length_app.
Qed.

Lemma posts_app (a b : list Event) : posts (a ++ b) = posts a ++ posts b.
Proof.
  induction a as [|e a IH]; simpl; [reflexivity|].
  destruct e; simpl; rewrite IH; reflexivity.
Qed.

Lemma posts_prints (ls : list string) : posts (map EvPrint ls) = [].
Proof. induction ls as [|l ls IH]; simpl; auto. Qed.

(** ** The console: what can be written *)

Lemma writable_append (con : Console) (a b : string) :
  writable con (a ++ b)%string = writable con a && writable con b.
Proof.
  induction a as [|c a IH]; simpl; [reflexivity|].
  rewrite IH. apply andb_assoc.
Qed.

Lemma writable_uint (con : Console) (d : Decimal.uint) :
  writable con (NilEmpty.string_of_uint d) = true.
Proof. induction d; simpl; auto. Qed.

(** The numeral of an integer has digits and a sign only. *)
Lemma writable_of_int (con : Console) (z : Z) :
  writable con (PyStr.of_int z) = true.
Proof.
  unfold PyStr.of_int, NilZero.string_of_int, NilZero.string_of_uint.
  destruct (Z.to_int z) as [d|d]; destruct d; simpl;
    auto using writable_uint.
Qed.

Lemma is_ascii_hex_digit (n : nat) : is_ascii (hex_digit n) = true.
Proof. do 16 (destruct n as [|n]; [reflexivity|]). reflexivity. Qed.

Lemma writable_hex2 (con : Console) (c : ascii) : writable con (hex2 c) = true.
Proof.
  unfold hex2, writable, can_encode. rewrite !is_ascii_hex_digit. reflexivity.
Qed.

Lemma writable_codec (con : Console) :
  writable con (codec_name con) = true
  /\ writable con (codec_reason con) = true.
Proof. destruct con; split; reflexivity. Qed.

(** The text of an encoding error can itself be written on the console
    that raised it. *)
Lemma writable_encode_error (con : Console) (s : string) :
  writable con (encode_error_text con s) = true.
Proof.
  destruct (writable_codec con) as [N R].
  unfold encode_error_text.
  destruct (first_bad con s 0) as [[[pos c] n]|]; [|reflexivity].
  destruct n as [|[|n]];
    repeat rewrite writable_append;
    rewrite ?N, ?R, ?writable_of_int, ?writable_hex2; reflexivity.
Qed.

Arguments encode_error_text : simpl never.

(** The line of the handler can be written exactly when the description
    can. *)
Lemma writable_error_line (con : Console) (s : string) :
  writable con ("An error occurred: " ++ s) = writable con s.
Proof. reflexivity. Qed.

Lemma writable_status_line (con : Console) (z : Z) :
  writable con ("Error occurred while sending the request. Response code: "
                ++ PyStr.of_int z) = true.
Proof. rewrite writable_append, writable_of_int. reflexivity. Qed.

Lemma print_ok (s : string) (w : World) :
  writable (console w) s = true ->
  print s w = (Ok tt, extend w [EvPrint s]).
Proof. intros H. unfold print. rewrite H. reflexivity. Qed.

Lemma print_fails (s : string) (w : World) :
  writable (console w) s = false ->
  print s w = (Raise (UnicodeEncodeError (console w) s), w).
Proof. intros H. unfold print. rewrite H. reflexivity. Qed.

(** ** Sequencing and the handler *)

Lemma bind_ok {A B} (m : IO A) (k : A -> IO B) (w w' : World) (a : A) :
  m w = (Ok a, w') -> bind m k w = k a w'.
Proof. intros E. unfold bind. rewrite E. reflexivity. Qed.

Lemma bind_raise {A B} (m : IO A) (k : A -> IO B) (w w' : World) (e : exn) :
  m w = (Raise e, w') -> bind m k w = (Raise e, w').
Proof. intros E. unfold bind. rewrite E. reflexivity. Qed.

Lemma try_ok {A} (body : IO A) (handler : exn -> IO A) (w w' : World) (a : A) :
  body w = (Ok a, w') ->
  try_except_Exception body handler w = (Ok a, w').
Proof. intros E. unfold try_except_Exception. rewrite E. reflexivity. Qed.

Lemma try_caught {A} (body : IO A) (handler : exn -> IO A) (w w' : World)
      (e : exn) :
  body w = (Raise e, w') ->
  exn_is_Exception e = true ->
  try_except_Exception body handler w = handler e w'.
Proof.
  intros E H. unfold try_except_Exception. rewrite E, H. reflexivity.
Qed.

Lemma try_uncaught {A} (body : IO A) (handler : exn -> IO A) (w w' : World)
      (e : exn) :
  body w = (Raise e, w') ->
  exn_is_Exception e = false ->
  try_except_Exception body handler w = (Raise e, w').
Proof.
  intros E H. unfold try_except_Exception. rewrite E, H. reflexivity.
Qed.

(** One [print] that succeeds, at the head of a sequence. *)
Ltac print_step :=
  erewrite bind_ok by (apply print_ok; (reflexivity || assumption)).

(** Closes an equation between worlds built by [extend]. *)
Ltac same_world :=
  repeat rewrite emit_extend; repeat rewrite extend_extend; reflexivity.

(** ** What [send_url_to_server] does, case by case *)

Section SendUrl.

Variables (url : string) (w : World).

Lemma post_responds (r : Response) :
  next_outcome w url = Responds r ->
  requests_post ANALYZE_URL [("url", url)] w =
  (Ok r, extend w [EvPost (request_for url)]).
Proof.
  unfold next_outcome, request_for, requests_post. intros ->. reflexivity.
Qed.

Lemma post_raises (e : exn) :
  next_outcome w url = PostRaises e ->
  requests_post ANALYZE_URL [("url", url)] w =
  (Raise e, extend w [EvPost (request_for url)]).
Proof.
  unfold next_outcome, request_for, requests_post. intros ->. reflexivity.
Qed.

Lemma send_ok_200 (r : Response) :
  next_outcome w url = Responds r ->
  status_code r = 200%Z ->
  writable (console w) (PyStr.strip (text r)) = true ->
  send_url_to_server url w =
  (Ok tt, extend w [EvPost (request_for url);
                    EvPrint "Server Response:";
                    EvPrint dashes;
                    EvPrint (PyStr.strip (text r));
                    EvPrint dashes]).
Proof.
  intros Hn Hs Hw. unfold send_url_to_server. apply try_ok.
  rewrite (bind_ok _ _ _ _ _ (post_responds r Hn)), Hs.
  change (200 =? 200)%Z with true. cbv iota.
  do 3 print_step. rewrite print_ok by reflexivity. same_world.
Qed.

(** The body cannot be written: the header and the first delimiter are out
    when [print] raises, and the handler reports the encoding error. *)
Lemma send_ok_200_unwritable (r : Response) :
  next_outcome w url = Responds r ->
  status_code r = 200%Z ->
  writable (console w) (PyStr.strip (text r)) = false ->
  send_url_to_server url w =
  (Ok tt, extend w [EvPost (request_for url);
                    EvPrint "Server Response:";
                    EvPrint dashes;
                    EvPrint ("An error occurred: "
                             ++ encode_error_text (console w)
                                                  (PyStr.strip (text r)))]).
Proof.
  intros Hn Hs Hw. unfold send_url_to_server.
  set (body := bind _ _).
  assert (B : body w =
              (Raise (UnicodeEncodeError (console w) (PyStr.strip (text r))),
               extend w [EvPost (request_for url);
                         EvPrint "Server Response:"; EvPrint dashes])).
  { unfold body.
    rewrite (bind_ok _ _ _ _ _ (post_responds r Hn)), Hs.
    change (200 =? 200)%Z with true. cbv iota.
    do 2 print_step. erewrite bind_raise; [reflexivity|].
    rewrite print_fails by exact Hw. same_world. }
  rewrite (try_caught _ _ _ _ _ B eq_refl).
  rewrite print_ok; [same_world|].
  simpl exn_str. rewrite writable_error_line. apply writable_encode_error.
Qed.

Lemma send_ok_other (r : Response) :
  next_outcome w url = Responds r ->
  status_code r <> 200%Z ->
  send_url_to_server url w =
  (Ok tt, extend w [EvPost (request_for url);
                    EvPrint ("Error occurred while sending the request. Response code: "
                             ++ PyStr.of_int (status_code r))]).
Proof.
  intros Hn Hs. unfold send_url_to_server. apply try_ok.
  rewrite (bind_ok _ _ _ _ _ (post_responds r Hn)).
  apply Z.eqb_neq in Hs. rewrite Hs.
  rewrite print_ok by apply writable_status_line. same_world.
Qed.

Lemma send_caught (e : exn) :
  next_outcome w url = PostRaises e ->
  exn_is_Exception e = true ->
  writable (console w) (exn_str e) = true ->
  send_url_to_server url w =
  (Ok tt, extend w [EvPost (request_for url);
                    EvPrint ("An error occurred: " ++ exn_str e)]).
Proof.
  intros Hn He Hw. unfold send_url_to_server.
  rewrite (try_caught _ _ _ _ _ (bind_raise _ _ _ _ _ (post_raises e Hn)) He).
  rewrite print_ok by (rewrite writable_error_line; exact Hw). same_world.
Qed.

(** The description cannot be written: the handler's own [print] raises,
    and nothing catches that. *)
Lemma send_handler_fails (e : exn) :
  next_outcome w url = PostRaises e ->
  exn_is_Exception e = true ->
  writable (console w) (exn_str e) = false ->
  send_url_to_server url w =
  (Raise (UnicodeEncodeError (console w) ("An error occurred: " ++ exn_str e)),
   extend w [EvPost (request_for url)]).
Proof.
  intros Hn He Hw. unfold send_url_to_server.
  rewrite (try_caught _ _ _ _ _ (bind_raise _ _ _ _ _ (post_raises e Hn)) He).
  rewrite print_fails by (rewrite writable_error_line; exact Hw). reflexivity.
Qed.

Lemma send_uncaught (e : exn) :
  next_outcome w url = PostRaises e ->
  exn_is_Exception e = false ->
  send_url_to_server url w = (Raise e, extend w [EvPost (request_for url)]).
Proof.
  intros Hn He. unfold send_url_to_server.
  apply (try_uncaught _ _ _ _ _ (bind_raise _ _ _ _ _ (post_raises e Hn)) He).
Qed.

(** In every case exactly the request goes out, first. *)
Lemma send_shape :
  exists r ls,
    send_url_to_server url w =
    (r, extend w (EvPost (request_for url) :: map EvPrint ls)).
Proof.
  destruct (next_outcome w url) as [resp|e] eqn:Hn.
  - destruct (Z.eq_dec (status_code resp) 200) as [Hs|Hs].
    + destruct (writable (console w) (PyStr.strip (text resp))) eqn:Hw.
      * eexists _, [_; _; _; _]. simpl. apply (send_ok_200 resp Hn Hs Hw).
      * eexists _, [_; _; _]. simpl.
        apply (send_ok_200_unwritable resp Hn Hs Hw).
    + eexists _, [_]. simpl. apply (send_ok_other resp Hn Hs).
  - destruct (exn_is_Exception e) eqn:He.
    + destruct (writable (console w) (exn_str e)) eqn:Hw.
      * eexists _, [_]. simpl. apply (send_caught e Hn He Hw).
      * eexists _, []. simpl. apply (send_handler_fails e Hn He Hw).
    + eexists _, []. simpl. apply (send_uncaught e Hn He).
Qed.

End SendUrl.

(** ** What one pass of the loop does, case by case *)

Lemma next_outcome_prompt (w : World) (p url : string) :
  next_outcome (extend w [EvPrompt p]) url = next_outcome w url.
Proof.
  unfold next_outcome. rewrite out_extend, posts_app. simpl.
  rewrite app_nil_r. reflexivity.
Qed.

Lemma input_line (p line : string) (w : World) :
  input p (Line line) w = (Ok line, extend w [EvPrompt p]).
Proof. reflexivity. Qed.

Section LoopBody.

Variables (line : string) (w : World).

Lemma loop_body_exit :
  is_exit line = true ->
  loop_body (Line line) w =
  (Ok Terminated, extend w [EvPrompt "URL: "; EvPrint "Exiting..."]).
Proof.
  unfold is_exit. intros H. unfold loop_body.
  rewrite (bind_ok _ _ _ _ _ (input_line "URL: " line w)).
  cbv beta zeta. rewrite H. print_step. unfold ret. same_world.
Qed.

Lemma loop_body_blank :
  PyStr.strip line = "" ->
  loop_body (Line line) w =
  (Ok AwaitingInput,
   extend w [EvPrompt "URL: "; EvPrint "Please enter a valid URL."]).
Proof.
  intros H. unfold loop_body.
  rewrite (bind_ok _ _ _ _ _ (input_line "URL: " line w)).
  cbv beta zeta. rewrite H.
  change (PyStr.lower "" =? "exit") with false.
  change (PyStr.truthy "") with false. cbv iota.
  print_step. unfold ret. same_world.
Qed.

Lemma loop_body_send :
  is_exit line = false ->
  PyStr.strip line <> "" ->
  loop_body (Line line) w =
  match send_url_to_server (PyStr.strip line) (extend w [EvPrompt "URL: "]) with
  | (Ok _, w') => (Ok AwaitingInput, w')
  | (Raise e, w') => (Raise e, w')
  end.
Proof.
  unfold is_exit. intros H N. apply PyStrFacts.truthy_true in N.
  unfold loop_body.
  rewrite (bind_ok _ _ _ _ _ (input_line "URL: " line w)).
  cbv beta zeta. rewrite H, N. reflexivity.
Qed.


End LoopBody.

(** Every pass writes the prompt first, sends at most one request, and
    otherwise only prints. *)
Lemma loop_body_shape (ev : InputEvent) (w : World) :
  exists r evs,
    loop_body ev w = (r, extend w (EvPrompt "URL: " :: evs))
    /\ (posts evs = []
        \/ exists line, ev = Line line
                        /\ posts evs = [request_for (PyStr.strip line)]).
Proof.
  destruct ev as [line|e].
  - destruct (is_exit line) eqn:Hx.
    + eexists _, [_]. split; [apply (loop_body_exit line w Hx)|]. left; reflexivity.
    + destruct (string_dec (PyStr.strip line) "") as [Hb|Hb].
      * eexists _, [_]. split; [apply (loop_body_blank line w Hb)|].
        left; reflexivity.
      * rewrite (loop_body_send line w Hx Hb).
        destruct (send_shape (PyStr.strip line) (extend w [EvPrompt "URL: "]))
          as [r [ls E]].
        rewrite E, extend_extend. simpl app.
        pose proof (posts_prints ls) as P.
        destruct r as [u|e]; eexists _, _; (split; [reflexivity|]);
          right; exists line; simpl; rewrite P; auto.
  - exists (Raise e), []. split; [reflexivity | left; reflexivity].
Qed.

Lemma loop_body_network (ev : InputEvent) (w : World) :
  network (snd (loop_body ev w)) = network w.
Proof.
  destruct (loop_body_shape ev w) as [r [evs [E _]]]. rewrite E. reflexivity.
Qed.

Lemma loop_body_console (ev : InputEvent) (w : World) :
  console (snd (loop_body ev w)) = console w.
Proof.
  destruct (loop_body_shape ev w) as [r [evs [E _]]]. rewrite E. reflexivity.
Qed.

(** The state a pass leaves the loop in tells what was typed. *)
Lemma loop_body_terminated (ev : InputEvent) (w : World) :
  fst (loop_body ev w) = Ok Terminated ->
  exists line, ev = Line line /\ is_exit line = true.
Proof.
  destruct ev as [line|e]; [|discriminate].
  intros H. exists line; split; [reflexivity|].
  destruct (is_exit line) eqn:Hx; [reflexivity|exfalso].
  destruct (string_dec (PyStr.strip line) "") as [Hb|Hb].
  - rewrite (loop_body_blank line w Hb) in H. discriminate.
  - rewrite (loop_body_send line w Hx Hb) in H.
    destruct (send_url_to_server _ _) as [[u|e] w']; discriminate.
Qed.


(** With an endpoint whose failures are instances of [Exception] that the
    console can describe, a typed line decides the next state by itself. *)
Lemma loop_body_line_state (line : string) (w : World) :
  reports_failures (console w) (network w) ->
  fst (loop_body (Line line) w) =
  Ok (if is_exit line then Terminated else AwaitingInput).
Proof.
  intros Hnet. destruct (is_exit line) eqn:Hx.
  - rewrite (loop_body_exit line w Hx). reflexivity.
  - destruct (string_dec (PyStr.strip line) "") as [Hb|Hb].
    + rewrite (loop_body_blank line w Hb). reflexivity.
    + rewrite (loop_body_send line w Hx Hb).
      set (w1 := extend w [EvPrompt "URL: "]).
      destruct (next_outcome w1 (PyStr.strip line)) as [resp|e] eqn:Hn.
      * destruct (Z.eq_dec (status_code resp) 200) as [Hs|Hs].
        -- destruct (writable (console w1) (PyStr.strip (text resp))) eqn:Hw.
           ++ rewrite (send_ok_200 _ w1 resp Hn Hs Hw). reflexivity.
           ++ rewrite (send_ok_200_unwritable _ w1 resp Hn Hs Hw). reflexivity.
        -- rewrite (send_ok_other _ w1 resp Hn Hs). reflexivity.
      * destruct (Hnet _ _ _ Hn) as [He Hw].
        rewrite (send_caught _ w1 e Hn He Hw). reflexivity.
Qed.

(** ** The loop *)

Lemma loop_cons (ev : InputEvent) (rest : list InputEvent) (w : World) :
  loop (ev :: rest) w =
  match loop_body ev w with
  | (Ok AwaitingInput, w') => loop rest w'
  | (Ok Terminated, w') => (Ok Terminated, w')
  | (Raise e, w') => (Raise e, w')
  end.
Proof. reflexivity. Qed.

(** A pass that leaves the loop in [AwaitingInput] hands over to the rest of
    the input. *)
Lemma loop_continue (ev : InputEvent) (rest : list InputEvent)
      (w w' : World) :
  loop_body ev w = (Ok AwaitingInput, w') ->
  loop (ev :: rest) w = loop rest w'.
Proof. intros E. rewrite loop_cons, E. reflexivity. Qed.

Lemma loop_break (ev : InputEvent) (rest : list InputEvent) (w w' : World) :
  loop_body ev w = (Ok Terminated, w') ->
  loop (ev :: rest) w = (Ok Terminated, w').
Proof. intros E. rewrite loop_cons, E. reflexivity. Qed.

Lemma loop_network (stdin : list InputEvent) (w : World) :
  network (snd (loop stdin w)) = network w.
Proof.
  revert w; induction stdin as [|ev rest IH]; intros w; [reflexivity|].
  rewrite loop_cons. pose proof (loop_body_network ev w) as N.
  destruct (loop_body ev w) as [[[|]|e] w']; simpl in *;
    [rewrite IH|..]; exact N.
Qed.

(** While the loop is waiting after the events [pre], any further input is
    handled from the world reached there; the prompt on which the program
    was waiting is the prompt of the next pass. *)
Lemma loop_app (pre : list InputEvent) (w : World) :
  fst (loop pre w) = Ok AwaitingInput ->
  exists w1,
    snd (loop pre w) = extend w1 [EvPrompt "URL: "]
    /\ forall tail, loop (pre ++ tail) w = loop tail w1.
Proof.
  revert w; induction pre as [|ev rest IH]; intros w H.
  - exists w. split; reflexivity.
  - rewrite loop_cons in H.
    destruct (loop_body ev w) as [[[|]|e] w'] eqn:E; try discriminate.
    destruct (IH w' H) as [w1 [E1 T]]. exists w1. split.
    + rewrite (loop_continue ev rest w w' E). exact E1.
    + intros tail. simpl app. rewrite (loop_continue ev _ w w' E). apply T.
Qed.


Lemma loop_console (stdin : list InputEvent) (w : World) :
  console (snd (loop stdin w)) = console w.
Proof.
  revert w; induction stdin as [|ev rest IH]; intros w; [reflexivity|].
  rewrite loop_cons. pose proof (loop_body_console ev w) as N.
  destruct (loop_body ev w) as [[[|]|e] w']; simpl in *;
    [rewrite IH|..]; exact N.
Qed.


Lemma main_loop (stdin : list InputEvent) (w : World) :
  main stdin w =
  loop stdin
       (extend w [EvPrint "Enter a URL to analyze (or type 'exit' to quit):"]).
Proof. reflexivity. Qed.

(** ** Printed numbers and prefixes *)

(** The numeral printed for a status code reads back as that code. *)
Lemma of_int_reads_back (z : Z) :
  option_map Z.of_int (NilZero.int_of_string (PyStr.of_int z)) = Some z.
Proof.
  unfold PyStr.of_int. rewrite NilZero.isi.
  - simpl. rewrite DecimalZ.of_to. reflexivity.
  - destruct z; simpl; try discriminate.
    intros [= H]. apply (DecimalPos.Unsigned.to_uint_nonnil p H).
  - destruct z; simpl; try discriminate.
    intros [= H]. apply (DecimalPos.Unsigned.to_uint_nonnil p H).
Qed.


(** ** The contract of the client *)

(** C1, as amended: for every input line whose trimmed form is non-empty and
    is not the exit command, the pass issues exactly one HTTP request: a POST
    to http://localhost:4567/analyze with the single form field [url], whose
    value is the trimmed line. *)
Theorem C1_one_post_with_trimmed_url (line : string) (w : World) :
  PyStr.strip line <> "" ->
  is_exit line = false ->
  posts (events_of (loop_body (Line line)) w) =
  [mkRequest POST "http://localhost:4567/analyze"
             [("url", PyStr.strip line)]].
Proof.
  intros Hb Hx. unfold events_of.
  rewrite (loop_body_send line w Hx Hb).
  destruct (send_shape (PyStr.strip line) (extend w [EvPrompt "URL: "]))
    as [r [ls E]].
  rewrite E, extend_extend.
  destruct r as [u|e]; simpl snd; rewrite out_extend, skipn_length_app;
    simpl; rewrite posts_prints; reflexivity.
Qed.

Lemma C1_one_post_with_trimmed_url_witness :
  PyStr.strip "  http://example.com/mod " <> ""
  /\ is_exit "  http://example.com/mod " = false
  /\ posts (events_of (loop_body (Line "  http://example.com/mod "))
                      (fresh endpoint_safe)) =
     [mkRequest POST "http://localhost:4567/analyze"
                [("url", "http://example.com/mod")]].
Proof.
  split; [discriminate|]. split; [reflexivity|].
  apply (C1_one_post_with_trimmed_url "  http://example.com/mod "
           (fresh endpoint_safe)); [discriminate | reflexivity].
Defined.

(** C1, as stated, fails: for the line [" a"], whose trimmed form ["a"] is
    non-empty and not the exit command, the value of the [url] field is
    ["a"], not the string the operator typed. *)
Lemma C1_raw_line_counterexample :
  PyStr.strip " a" <> ""
  /\ is_exit " a" = false
  /\ posts (events_of (loop_body (Line " a")) (fresh endpoint_safe)) =
     [request_for "a"]
  /\ posts (events_of (loop_body (Line " a")) (fresh endpoint_safe)) <>
     [request_for " a"].
Proof.
  split; [discriminate|]. split; [reflexivity|].
  split; [reflexivity | discriminate].
Qed.




(** C3: for every input line whose trimmed form, lower-cased, is [exit], the
    pass prints the farewell ["Exiting..."], the loop ends in [Terminated]
    whatever input was still to come, and no HTTP request is issued. *)
Theorem C3_exit_terminates_without_request
        (line : string) (rest : list InputEvent) (w : World) :
  is_exit line = true ->
  loop_body (Line line) w =
    (Ok Terminated, extend w [EvPrompt "URL: "; EvPrint "Exiting..."])
  /\ loop (Line line :: rest) w =
     (Ok Terminated, extend w [EvPrompt "URL: "; EvPrint "Exiting..."])
  /\ posts (events_of (loop (Line line :: rest)) w) = [].
Proof.
  intros Hx. pose proof (loop_body_exit line w Hx) as B.
  pose proof (loop_break _ rest _ _ B) as L.
  split; [exact B|]. split; [exact L|].
  rewrite (events_of_extend _ _ _ _ L). reflexivity.
Qed.

Lemma C3_exit_terminates_without_request_witness :
  (is_exit "exit" = true /\ is_exit "EXIT" = true /\ is_exit "Exit" = true)
  /\ loop [Line "  EXIT "; Line "http://example.com/mod"] (fresh endpoint_safe) =
     (Ok Terminated,
      extend (fresh endpoint_safe) [EvPrompt "URL: "; EvPrint "Exiting..."]).
Proof.
  split; [repeat split; reflexivity|].
  apply (C3_exit_terminates_without_request
           "  EXIT " [Line "http://example.com/mod"] (fresh endpoint_safe)).
  reflexivity.
Defined.




(** C5, as amended: for every request answered with status 200 whose body,
    trimmed, the console can write, the program prints, after the header
    line, a delimiter line of 40 dashes, then the response body with leading
    and trailing whitespace removed, then the same delimiter line.  When the
    console cannot write the body, the header and the first delimiter are
    followed by the line of the handler, which reports the encoding error;
    the body and the closing delimiter are not printed. *)
Theorem C5_response_block (url : string) (w : World) (r : Response) :
  next_outcome w url = Responds r ->
  status_code r = 200%Z ->
  (writable (console w) (PyStr.strip (text r)) = true ->
   send_url_to_server url w =
     (Ok tt, extend w [EvPost (request_for url);
                       EvPrint "Server Response:";
                       EvPrint dashes;
                       EvPrint (PyStr.strip (text r));
                       EvPrint dashes]))
  /\ (writable (console w) (PyStr.strip (text r)) = false ->
      send_url_to_server url w =
        (Ok tt, extend w [EvPost (request_for url);
                          EvPrint "Server Response:";
                          EvPrint dashes;
                          EvPrint ("An error occurred: "
                                   ++ exn_str (UnicodeEncodeError
                                                 (console w)
                                                 (PyStr.strip (text r))))]))
  /\ dashes = PyStr.repeat "-" 40
  /\ String.length dashes = 40.
Proof.
  intros Hn Hs.
  split; [intros Hw; apply (send_ok_200 url w r Hn Hs Hw)|].
  split; [intros Hw; apply (send_ok_200_unwritable url w r Hn Hs Hw)|].
  split; reflexivity.
Qed.

Lemma C5_response_block_witness :
  next_outcome (fresh endpoint_safe) "http://example.com/mod" =
    Responds (mkResponse 200 "  Result: safe  ")
  /\ send_url_to_server "http://example.com/mod" (fresh endpoint_safe) =
     (Ok tt,
      extend (fresh endpoint_safe)
             [EvPost (request_for "http://example.com/mod");
              EvPrint "Server Response:";
              EvPrint "----------------------------------------";
              EvPrint "Result: safe";
              EvPrint "----------------------------------------"]).
Proof.
  split; [reflexivity|].
  apply (C5_response_block "http://example.com/mod" (fresh endpoint_safe)
           (mkResponse 200 "  Result: safe  ")); reflexivity.
Defined.

(** C5, as stated, fails: on a console with the encoding [ascii], for a 200
    response whose body has an accented letter, the program prints the
    header and one delimiter line, and then the error line of the handler;
    neither the body nor a second delimiter line is printed. *)
Lemma C5_unwritable_body_counterexample :
  next_outcome (fresh_on AsciiConsole endpoint_accented)
               "http://example.com/mod" =
    Responds (mkResponse 200
                (String "R" (String "233" ("sultat : s" ++ String "251" "r"))))
  /\ printed (events_of (send_url_to_server "http://example.com/mod")
                        (fresh_on AsciiConsole endpoint_accented)) =
     ["Server Response:";
      "----------------------------------------";
      "An error occurred: 'ascii' codec can't encode character '\xe9' in position 1: ordinal not in range(128)"]
  /\ ~ In (String "R" (String "233" ("sultat : s" ++ String "251" "r")))
          (printed (events_of (send_url_to_server "http://example.com/mod")
                              (fresh_on AsciiConsole endpoint_accented))).
Proof.
  split; [reflexivity|]. split; [reflexivity|].
  intros [H|[H|[H|[]]]]; discriminate H.
Qed.

(** C6: for every request answered with a status code other than 200 the
    program prints one line, the error message ending in the decimal numeral
    of that status code (which reads back as the code), and nothing else: the
    console output is the same whatever the response body is. *)
Theorem C6_status_error (url : string) (w : World) (r : Response) :
  next_outcome w url = Responds r ->
  status_code r <> 200%Z ->
  send_url_to_server url w =
    (Ok tt,
     extend w [EvPost (request_for url);
               EvPrint ("Error occurred while sending the request. Response code: "
                        ++ PyStr.of_int (status_code r))])
  /\ option_map Z.of_int (NilZero.int_of_string (PyStr.of_int (status_code r)))
     = Some (status_code r)
  /\ (forall w' r',
         out w' = out w ->
         next_outcome w' url = Responds r' ->
         status_code r' = status_code r ->
         out (snd (send_url_to_server url w')) =
         out (snd (send_url_to_server url w))).
Proof.
  intros Hn Hs. split; [apply (send_ok_other url w r Hn Hs)|].
  split; [apply of_int_reads_back|].
  intros w' r' Ho Hn' Hs'.
  rewrite (send_ok_other url w r Hn Hs).
  rewrite (send_ok_other url w' r' Hn') by (rewrite Hs'; exact Hs).
  simpl. rewrite Ho, Hs'. reflexivity.
Qed.

Lemma C6_status_error_witness :
  next_outcome (fresh endpoint_404) "http://example.com/mod" =
    Responds (mkResponse 404 "Not Found")
  /\ send_url_to_server "http://example.com/mod" (fresh endpoint_404) =
     (Ok tt,
      extend (fresh endpoint_404)
             [EvPost (request_for "http://example.com/mod");
              EvPrint "Error occurred while sending the request. Response code: 404"]).
Proof.
  split; [reflexivity|].
  apply (C6_status_error "http://example.com/mod" (fresh endpoint_404)
           (mkResponse 404 "Not Found")); [reflexivity | discriminate].
Defined.

(** C7: for every input line whose trimmed form is empty, no HTTP request is
    issued, the message ["Please enter a valid URL."] is printed, and the loop
    goes on with the rest of the input. *)
Theorem C7_blank_line_retry
        (line : string) (rest : list InputEvent) (w : World) :
  PyStr.strip line = "" ->
  loop_body (Line line) w =
    (Ok AwaitingInput,
     extend w [EvPrompt "URL: "; EvPrint "Please enter a valid URL."])
  /\ posts (events_of (loop_body (Line line)) w) = []
  /\ loop (Line line :: rest) w =
     loop rest
          (extend w [EvPrompt "URL: "; EvPrint "Please enter a valid URL."]).
Proof.
  intros Hb. pose proof (loop_body_blank line w Hb) as B.
  split; [exact B|]. split.
  - rewrite (events_of_extend _ _ _ _ B). reflexivity.
  - apply (loop_continue _ _ _ _ B).
Qed.

Lemma C7_blank_line_retry_witness :
  PyStr.strip "   " = ""
  /\ loop [Line "   "; Line "exit"] (fresh endpoint_safe) =
     (Ok Terminated,
      extend (fresh endpoint_safe)
             [EvPrompt "URL: "; EvPrint "Please enter a valid URL.";
              EvPrompt "URL: "; EvPrint "Exiting..."]).
Proof.
  split; [reflexivity|].
  rewrite (proj2 (proj2 (C7_blank_line_retry "   " [Line "exit"]
                           (fresh endpoint_safe) eq_refl))).
  reflexivity.
Defined.

(** The lines [send_url_to_server] prints, by what the HTTP call did and by
    what the console can write. *)
Lemma send_printed (url : string) (w : World) :
  printed (events_of (send_url_to_server url) w) =
  match next_outcome w url with
  | Responds r =>
      if (status_code r =? 200)%Z
      then if writable (console w) (PyStr.strip (text r))
           then ["Server Response:"; dashes; PyStr.strip (text r); dashes]
           else ["Server Response:"; dashes;
                 ("An error occurred: "
                  ++ encode_error_text (console w) (PyStr.strip (text r)))%string]
      else [("Error occurred while sending the request. Response code: "
             ++ PyStr.of_int (status_code r))%string]
  | PostRaises e =>
      if exn_is_Exception e && writable (console w) (exn_str e)
      then [("An error occurred: " ++ exn_str e)%string]
      else []
  end.
Proof.
  destruct (next_outcome w url) as [r|e] eqn:Hn.
  - destruct (Z.eqb_spec (status_code r) 200) as [Hs|Hs].
    + destruct (writable (console w) (PyStr.strip (text r))) eqn:Hw.
      * rewrite (events_of_extend _ _ _ _ (send_ok_200 url w r Hn Hs Hw)).
        reflexivity.
      * rewrite (events_of_extend _ _ _ _
                   (send_ok_200_unwritable url w r Hn Hs Hw)).
        reflexivity.
    + rewrite (events_of_extend _ _ _ _ (send_ok_other url w r Hn Hs)).
      reflexivity.
  - destruct (exn_is_Exception e) eqn:He.
    + destruct (writable (console w) (exn_str e)) eqn:Hw.
      * rewrite (events_of_extend _ _ _ _ (send_caught url w e Hn He Hw)).
        reflexivity.
      * rewrite (events_of_extend _ _ _ _
                   (send_handler_fails url w e Hn He Hw)).
        reflexivity.
    + rewrite (events_of_extend _ _ _ _ (send_uncaught url w e Hn He)).
      reflexivity.
Qed.



(** C9: whenever a typed line results in a request, that request is the POST
    whose [url] field holds the line with leading and trailing whitespace
    removed: the line is whitespace, then the value, then whitespace, the
    value neither begins nor ends with whitespace, and when the line has
    whitespace to remove the value is not the line as typed. *)
Theorem C9_url_field_is_trimmed_line
        (line : string) (w : World) (r : Request) :
  In r (posts (events_of (loop_body (Line line)) w)) ->
  r = request_for (PyStr.strip line)
  /\ req_data r = [("url", PyStr.strip line)]
  /\ (exists pre post,
         line = (pre ++ PyStr.strip line ++ post)%string
         /\ PyStr.all_space pre = true /\ PyStr.all_space post = true)
  /\ (forall c, PyStr.first_char (PyStr.strip line) = Some c ->
                PyStr.isspace c = false)
  /\ (forall c, PyStr.last_char (PyStr.strip line) = Some c ->
                PyStr.isspace c = false)
  /\ (PyStr.strip line <> line -> req_data r <> [("url", line)]).
Proof.
  intros H.
  assert (R : r = request_for (PyStr.strip line)).
  { destruct (loop_body_shape (Line line) w) as [res [evs [E P]]].
    rewrite (events_of_extend _ _ _ _ E) in H. simpl in H.
    destruct P as [P | [l [[= <-] P]]]; rewrite P in H.
    - destruct H.
    - destruct H as [<- | []]. reflexivity. }
  destruct (PyStrFacts.strip_spec line) as [S [F L]].
  subst r. repeat split; try assumption.
  simpl. intros N [= E]. apply N, E.
Qed.

Lemma C9_url_field_is_trimmed_line_witness :
  posts (events_of (loop_body (Line "  http://example.com/mod "))
                   (fresh endpoint_safe)) =
    [request_for "http://example.com/mod"]
  /\ req_data (request_for "http://example.com/mod") =
     [("url", PyStr.strip "  http://example.com/mod ")].
Proof.
  split; [reflexivity|].
  apply (C9_url_field_is_trimmed_line "  http://example.com/mod "
           (fresh endpoint_safe) (request_for "http://example.com/mod")).
  left. reflexivity.
Defined.

(** C10: the handler in [send_url_to_server] does not cover the prompt.  When
    the program is waiting at the prompt and reading the line raises, be it
    an instance of [Exception] such as [EOFError] or not, the exception leaves
    the loop and [main] as it is, and nothing is printed after the prompt, so
    no farewell; the same exception raised by the HTTP call is caught when it
    is an instance of [Exception]: the handler runs, and the call returns
    when the console can write the description; and once the HTTP call has
    returned a response, what the printing of it raises is caught too. *)
Theorem C10_input_exception_propagates
        (e : exn) (pre rest : list InputEvent) (w : World) :
  fst (main pre w) = Ok AwaitingInput ->
  main (pre ++ InputRaises e :: rest) w = (Raise e, snd (main pre w))
  /\ (forall w',
         loop_body (InputRaises e) w' =
         (Raise e, extend w' [EvPrompt "URL: "]))
  /\ (forall w' rest',
         loop (InputRaises e :: rest') w' =
         (Raise e, extend w' [EvPrompt "URL: "]))
  /\ (forall w' url,
         next_outcome w' url = PostRaises e ->
         exn_is_Exception e = true ->
         send_url_to_server url w' =
           print ("An error occurred: " ++ exn_str e)
                 (extend w' [EvPost (request_for url)])
         /\ (writable (console w') (exn_str e) = true ->
             fst (send_url_to_server url w') = Ok tt))
  /\ (forall w' url r,
         next_outcome w' url = Responds r ->
         fst (send_url_to_server url w') = Ok tt).
Proof.
  intros H. rewrite !main_loop in *.
  destruct (loop_app pre _ H) as [w1 [E T]].
  split; [rewrite T, E; reflexivity|].
  split; [reflexivity|]. split; [reflexivity|]. split.
  - intros w' url Hn He. split.
    + unfold send_url_to_server.
      rewrite (try_caught _ _ _ _ _
                 (bind_raise _ _ _ _ _ (post_raises url w' e Hn)) He).
      reflexivity.
    + intros Hw. rewrite (send_caught url w' e Hn He Hw). reflexivity.
  - intros w' url r Hn.
    destruct (Z.eq_dec (status_code r) 200) as [Hs|Hs].
    + destruct (writable (console w') (PyStr.strip (text r))) eqn:Hw.
      * rewrite (send_ok_200 url w' r Hn Hs Hw). reflexivity.
      * rewrite (send_ok_200_unwritable url w' r Hn Hs Hw). reflexivity.
    + rewrite (send_ok_other url w' r Hn Hs). reflexivity.
Qed.

Lemma C10_input_exception_propagates_witness :
  fst (main [Line "http://example.com/mod"] (fresh endpoint_safe)) =
    Ok AwaitingInput
  /\ main [Line "http://example.com/mod"; InputRaises EOFError; Line "exit"]
          (fresh endpoint_safe) =
     (Raise EOFError,
      extend (fresh endpoint_safe)
             [EvPrint "Enter a URL to analyze (or type 'exit' to quit):";
              EvPrompt "URL: ";
              EvPost (request_for "http://example.com/mod");
              EvPrint "Server Response:";
              EvPrint dashes;
              EvPrint "Result: safe";
              EvPrint dashes;
              EvPrompt "URL: "]).
Proof.
  split; [reflexivity|].
  apply (C10_input_exception_propagates EOFError
           [Line "http://example.com/mod"] [Line "exit"]
           (fresh endpoint_safe)).
  reflexivity.
Defined.

(** ** Further properties of the strings the program handles *)

Module PyStrMore.
Import PyStr.
Local Open Scope string_scope.

Lemma lstrip_all_space (s : string) : all_space s = true -> lstrip s = "".
Proof.
  induction s as [|c s IH]; simpl; [reflexivity|].
  destruct (isspace c); simpl; [exact IH | discriminate].
Qed.

Lemma rstrip_all_space (s : string) : all_space s = true -> rstrip s = "".
Proof.
  induction s as [|c s IH]; simpl; [reflexivity|].
  destruct (isspace c) eqn:Hc; simpl; [|discriminate].
  intros H. rewrite (IH H). reflexivity.
Qed.

Lemma lstrip_empty_all_space (s : string) :
  lstrip s = "" -> all_space s = true.
Proof.
  induction s as [|c s IH]; simpl; [reflexivity|].
  destruct (isspace c); simpl; [exact IH | discriminate].
Qed.

Lemma rstrip_empty_all_space (s : string) :
  rstrip s = "" -> all_space s = true.
Proof.
  induction s as [|c s IH]; simpl; [reflexivity|].
  destruct (rstrip s) as [|d t]; [|discriminate].
  destruct (isspace c); simpl; [intros _; apply IH; reflexivity | discriminate].
Qed.

Lemma all_space_lstrip (s : string) :
  all_space (lstrip s) = true -> all_space s = true.
Proof.
  induction s as [|c s IH]; simpl; [reflexivity|].
  destruct (isspace c) eqn:Hc; simpl; [exact IH|].
  rewrite Hc. discriminate.
Qed.

(** [strip] gives the empty string exactly on the lines made of whitespace
    only (the empty line among them). *)
Lemma strip_empty_iff (s : string) : strip s = "" <-> all_space s = true.
Proof.
  unfold strip. split; intros H.
  - apply all_space_lstrip, rstrip_empty_all_space, H.
  - rewrite (lstrip_all_space s H). reflexivity.
Qed.

Lemma lstrip_skip (pre s : string) :
  all_space pre = true -> lstrip (pre ++ s) = lstrip s.
Proof.
  induction pre as [|c pre IH]; simpl; [reflexivity|].
  destruct (isspace c); simpl; [exact IH | discriminate].
Qed.

Lemma rstrip_skip (s post : string) :
  all_space post = true -> rstrip (s ++ post) = rstrip s.
Proof.
  intros H. induction s as [|c s IH]; simpl.
  - apply rstrip_all_space, H.
  - rewrite IH. reflexivity.
Qed.

Lemma first_char_append (a b : string) (c : ascii) :
  first_char a = Some c -> first_char (a ++ b) = Some c.
Proof. destruct a; simpl; congruence. Qed.

(** Whitespace put around a string that has none at its ends is removed
    again, and nothing else is. *)
Lemma strip_padded (pre core post : string) :
  all_space pre = true ->
  all_space post = true ->
  (forall c, first_char core = Some c -> isspace c = false) ->
  (forall c, last_char core = Some c -> isspace c = false) ->
  strip (pre ++ core ++ post) = core.
Proof.
  intros Hpre Hpost F L. unfold strip. rewrite (lstrip_skip _ _ Hpre).
  destruct core as [|c core].
  - simpl. rewrite (lstrip_all_space _ Hpost). reflexivity.
  - rewrite PyStrFacts.lstrip_id.
    + rewrite (rstrip_skip _ _ Hpost). apply PyStrFacts.rstrip_id, L.
    + simpl. intros d [= <-]. apply F. reflexivity.
Qed.

(** The characters that [lower] turns into [e], [x], [i] and [t]. *)
Lemma lower_char_e (c : ascii) :
  Ascii.eqb (lower_char c) "e" = Ascii.eqb c "e" || Ascii.eqb c "E".
Proof. destruct c as [[] [] [] [] [] [] [] []]; reflexivity. Qed.

Lemma lower_char_x (c : ascii) :
  Ascii.eqb (lower_char c) "x" = Ascii.eqb c "x" || Ascii.eqb c "X".
Proof. destruct c as [[] [] [] [] [] [] [] []]; reflexivity. Qed.

Lemma lower_char_i (c : ascii) :
  Ascii.eqb (lower_char c) "i" = Ascii.eqb c "i" || Ascii.eqb c "I".
Proof. destruct c as [[] [] [] [] [] [] [] []]; reflexivity. Qed.

Lemma lower_char_t (c : ascii) :
  Ascii.eqb (lower_char c) "t" = Ascii.eqb c "t" || Ascii.eqb c "T".
Proof. destruct c as [[] [] [] [] [] [] [] []]; reflexivity. Qed.

Lemma either_char (c lo up : ascii) :
  Ascii.eqb c lo || Ascii.eqb c up = true <-> c = lo \/ c = up.
Proof.
  rewrite orb_true_iff, !Ascii.eqb_eq. reflexivity.
Qed.

(** The strings that read [exit] once lower-cased: four characters, each the
    letter in one of its two cases. *)
Lemma lower_exit_iff (s : string) :
  lower s = "exit" <->
  exists a b c d,
    s = String a (String b (String c (String d "")))
    /\ (a = "e" \/ a = "E")%char /\ (b = "x" \/ b = "X")%char
    /\ (c = "i" \/ c = "I")%char /\ (d = "t" \/ d = "T")%char.
Proof.
  split.
  - destruct s as [|a [|b [|c [|d [|z s]]]]]; simpl; try discriminate.
    intros [= Ha Hb Hc Hd]. exists a, b, c, d. split; [reflexivity|].
    apply Ascii.eqb_eq in Ha, Hb, Hc, Hd.
    rewrite lower_char_e in Ha. rewrite lower_char_x in Hb.
    rewrite lower_char_i in Hc. rewrite lower_char_t in Hd.
    apply either_char in Ha, Hb, Hc, Hd. auto.
  - intros [a [b [c [d [-> [Ha [Hb [Hc Hd]]]]]]]].
    apply either_char in Ha, Hb, Hc, Hd.
    rewrite <- lower_char_e in Ha. rewrite <- lower_char_x in Hb.
    rewrite <- lower_char_i in Hc. rewrite <- lower_char_t in Hd.
    apply Ascii.eqb_eq in Ha, Hb, Hc, Hd.
    simpl. rewrite Ha, Hb, Hc, Hd. reflexivity.
Qed.

End PyStrMore.

(** ** Further properties of the passes and of the loop *)

Lemma next_outcome_quiet (w : World) (evs : list Event) (url : string) :
  posts evs = [] ->
  next_outcome (extend w evs) url = next_outcome w url.
Proof.
  intros P. unfold next_outcome. rewrite out_extend, posts_app, P.
  rewrite app_nil_r. reflexivity.
Qed.

(** A pass depends on the line only through its trimmed form. *)
Lemma loop_body_strip (l1 l2 : string) (w : World) :
  PyStr.strip l1 = PyStr.strip l2 ->
  loop_body (Line l1) w = loop_body (Line l2) w.
Proof.
  intros H. unfold loop_body.
  rewrite (bind_ok _ _ _ _ _ (input_line "URL: " l1 w)).
  rewrite (bind_ok _ _ _ _ _ (input_line "URL: " l2 w)).
  cbv beta zeta. rewrite H. reflexivity.
Qed.

(** The ways a pass over a typed line can go.  In the last one an exception
    leaves the pass after the request: the HTTP call raised something that is
    not an instance of [Exception], or it raised an instance whose
    description the console cannot write and the handler's [print] raised. *)
Lemma loop_body_line_cases (line : string) (w : World) :
  (is_exit line = true
   /\ loop_body (Line line) w =
      (Ok Terminated, extend w [EvPrompt "URL: "; EvPrint "Exiting..."]))
  \/ (is_exit line = false /\ PyStr.strip line = ""
      /\ loop_body (Line line) w =
         (Ok AwaitingInput,
          extend w [EvPrompt "URL: "; EvPrint "Please enter a valid URL."]))
  \/ (is_exit line = false /\ PyStr.strip line <> ""
      /\ exists ls,
          loop_body (Line line) w =
          (Ok AwaitingInput,
           extend w (EvPrompt "URL: "
                     :: EvPost (request_for (PyStr.strip line))
                     :: map EvPrint ls)))
  \/ (is_exit line = false /\ PyStr.strip line <> ""
      /\ exists e e0,
          loop_body (Line line) w =
          (Raise e,
           extend w [EvPrompt "URL: ";
                     EvPost (request_for (PyStr.strip line))])
          /\ next_outcome w (PyStr.strip line) = PostRaises e0
          /\ ((exn_is_Exception e0 = false /\ e = e0)
              \/ (exn_is_Exception e0 = true
                  /\ writable (console w) (exn_str e0) = false
                  /\ e = UnicodeEncodeError
                           (console w)
                           ("An error occurred: " ++ exn_str e0)))).
Proof.
  destruct (is_exit line) eqn:Hx.
  { left. split; [reflexivity | apply (loop_body_exit line w Hx)]. }
  right. destruct (string_dec (PyStr.strip line) "") as [Hb|Hb].
  { left. split; [reflexivity|]. split; [exact Hb|].
    apply (loop_body_blank line w Hb). }
  right. rewrite (loop_body_send line w Hx Hb).
  set (w1 := extend w [EvPrompt "URL: "]).
  assert (N : next_outcome w1 (PyStr.strip line) =
              next_outcome w (PyStr.strip line))
    by apply next_outcome_prompt.
  destruct (next_outcome w1 (PyStr.strip line)) as [resp|e] eqn:Hn.
  - left. split; [reflexivity|]. split; [exact Hb|].
    destruct (Z.eq_dec (status_code resp) 200) as [Hs|Hs].
    + destruct (writable (console w1) (PyStr.strip (text resp))) eqn:Hw.
      * rewrite (send_ok_200 _ w1 resp Hn Hs Hw). unfold w1.
        rewrite extend_extend. eexists [_; _; _; _]. reflexivity.
      * rewrite (send_ok_200_unwritable _ w1 resp Hn Hs Hw). unfold w1.
        rewrite extend_extend. eexists [_; _; _]. reflexivity.
    + rewrite (send_ok_other _ w1 resp Hn Hs). unfold w1.
      rewrite extend_extend. eexists [_]. reflexivity.
  - destruct (exn_is_Exception e) eqn:He.
    + destruct (writable (console w1) (exn_str e)) eqn:Hw.
      * left. split; [reflexivity|]. split; [exact Hb|].
        rewrite (send_caught _ w1 e Hn He Hw). unfold w1.
        rewrite extend_extend. eexists [_]. reflexivity.
      * right. split; [reflexivity|]. split; [exact Hb|].
        eexists _, e. rewrite (send_handler_fails _ w1 e Hn He Hw). unfold w1.
        rewrite extend_extend. split; [reflexivity|].
        split; [symmetry; exact N|]. right. auto.
    + right. split; [reflexivity|]. split; [exact Hb|].
      exists e, e. rewrite (send_uncaught _ w1 e Hn He). unfold w1.
      rewrite extend_extend. split; [reflexivity|].
      split; [symmetry; exact N|]. left. auto.
Qed.

(** The requests of one pass, read off the line alone. *)
Lemma loop_body_line_posts (line : string) (w : World) :
  exists r evs,
    loop_body (Line line) w = (r, extend w evs)
    /\ posts evs =
       if is_exit line then []
       else if PyStr.truthy (PyStr.strip line)
            then [request_for (PyStr.strip line)]
            else [].
Proof.
  destruct (loop_body_line_cases line w)
    as [[Hx E] | [[Hx [Hb E]] | [[Hx [Hb [ls E]]]
                                | [Hx [Hb [e [e0 [E _]]]]]]]];
    rewrite E, Hx; eexists _, _; (split; [reflexivity|]).
  - reflexivity.
  - rewrite Hb. reflexivity.
  - apply PyStrFacts.truthy_true in Hb. rewrite Hb. simpl.
    rewrite posts_prints. reflexivity.
  - apply PyStrFacts.truthy_true in Hb. rewrite Hb. reflexivity.
Qed.

(** A run of the loop only adds events. *)
Lemma loop_extends (stdin : list InputEvent) (w : World) :
  exists evs, snd (loop stdin w) = extend w evs.
Proof.
  revert w; induction stdin as [|ev rest IH]; intros w.
  - exists [EvPrompt "URL: "]. reflexivity.
  - rewrite loop_cons.
    destruct (loop_body_shape ev w) as [r [evs [E _]]]. rewrite E.
    destruct r as [[|]|e]; try (eexists; reflexivity).
    destruct (IH (extend w (EvPrompt "URL: " :: evs))) as [evs' E'].
    rewrite E', extend_extend. eexists; reflexivity.
Qed.

Lemma events_of_out {A} (m : IO A) (w : World) (evs : list Event) :
  snd (m w) = extend w evs -> events_of m w = evs.
Proof.
  intros E. unfold events_of. rewrite E. simpl. apply skipn_length_app.
Qed.

(** Requests of a session of typed lines, in terms of the console so far. *)
Lemma loop_lines_posts (lines : list string) (w : World) :
  reports_failures (console w) (network w) ->
  posts (out (snd (loop (map Line lines) w))) =
  posts (out w) ++ map request_for (urls_before_exit lines).
Proof.
  revert w; induction lines as [|l lines IH]; intros w Hnet.
  - simpl. rewrite posts_app, !app_nil_r. reflexivity.
  - simpl map. rewrite loop_cons.
    pose proof (loop_body_line_state l w Hnet) as S.
    destruct (loop_body_line_posts l w) as [r [evs [E P]]].
    rewrite E in S |- *. simpl in S. subst r. simpl urls_before_exit.
    destruct (is_exit l).
    + simpl. rewrite posts_app, P. reflexivity.
    + rewrite IH by exact Hnet. rewrite out_extend, posts_app, P.
      destruct (PyStr.truthy (PyStr.strip l)); simpl.
      * rewrite <- app_assoc. reflexivity.
      * rewrite app_nil_r. reflexivity.
Qed.

Lemma loop_posts_origin (stdin : list InputEvent) (w : World) :
  exists evs,
    snd (loop stdin w) = extend w evs
    /\ (List.length (posts evs) <= List.length stdin)%nat
    /\ forall r, In r (posts evs) ->
         exists line,
           In (Line line) stdin /\ is_exit line = false
           /\ PyStr.strip line <> ""
           /\ r = request_for (PyStr.strip line).
Proof.
  revert w; induction stdin as [|ev rest IH]; intros w.
  - exists [EvPrompt "URL: "]. split; [reflexivity|].
    split; [simpl; lia | intros r []].
  - rewrite loop_cons. destruct ev as [l|e].
    + destruct (loop_body_line_posts l w) as [r [evs [E P]]]. rewrite E.
      assert (Here : (List.length (posts evs) <= 1)%nat
                     /\ forall q, In q (posts evs) ->
                          is_exit l = false /\ PyStr.strip l <> ""
                          /\ q = request_for (PyStr.strip l)).
      { rewrite P. destruct (is_exit l); [split; [simpl; lia | intros q []]|].
        destruct (PyStr.truthy (PyStr.strip l)) eqn:T.
        - split; [simpl; lia|]. intros q [<- | []].
          apply PyStrFacts.truthy_true in T. auto.
        - split; [simpl; lia | intros q []]. }
      destruct Here as [B O].
      assert (Stop : forall res,
                 exists evs0,
                   snd (res : Result LoopState, extend w evs) = extend w evs0
                   /\ (List.length (posts evs0) <= List.length (Line l :: rest))%nat
                   /\ forall q, In q (posts evs0) ->
                        exists line,
                          In (Line line) (Line l :: rest)
                          /\ is_exit line = false /\ PyStr.strip line <> ""
                          /\ q = request_for (PyStr.strip line)).
      { intros res. exists evs. split; [reflexivity|].
        split; [simpl; lia|]. intros q Hq. exists l.
        destruct (O q Hq) as [? [? ?]]. simpl. auto. }
      destruct r as [[|]|e]; try apply Stop.
      destruct (IH (extend w evs)) as [evs' [E' [B' O']]].
      exists (evs ++ evs'). rewrite E', extend_extend.
      split; [reflexivity|]. rewrite posts_app, length_app.
      split; [simpl; lia|]. intros q Hq. apply in_app_or in Hq.
      destruct Hq as [Hq|Hq].
      * exists l. destruct (O q Hq) as [? [? ?]]. simpl. auto.
      * destruct (O' q Hq) as [line [I R]]. exists line. simpl. auto.
    + exists [EvPrompt "URL: "]. split; [reflexivity|].
      split; [simpl; lia | intros r []].
Qed.

(** ** Further properties, as theorems *)

(** X1: over a session of typed lines, with an endpoint whose failures are
    instances of [Exception] that the console can describe, the requests
    issued are, in order, one for the trimmed form of every non-blank line
    before the first exit command; repeated lines are sent again each
    time. *)
Theorem X1_session_requests (lines : list string) (w : World) :
  reports_failures (console w) (network w) ->
  posts (events_of (loop (map Line lines)) w) =
  map request_for (urls_before_exit lines).
Proof.
  intros Hnet. destruct (loop_extends (map Line lines) w) as [evs E].
  rewrite (events_of_out _ _ _ E).
  pose proof (loop_lines_posts lines w Hnet) as P.
  rewrite E, out_extend, posts_app in P.
  apply app_inv_head in P. exact P.
Qed.

Lemma X1_session_requests_witness :
  posts (events_of
           (loop (map Line ["http://a"; "  http://a "; "   "; "http://a";
                            "Exit"; "http://b"]))
           (fresh endpoint_down)) =
  [request_for "http://a"; request_for "http://a"; request_for "http://a"].
Proof.
  apply (X1_session_requests
           ["http://a"; "  http://a "; "   "; "http://a"; "Exit"; "http://b"]
           (fresh endpoint_down)).
  intros n r e [= <-]. split; reflexivity.
Defined.

(** X2: whatever the input and whatever the endpoint does, the loop issues
    at most one request per input event, and every request it issues is the
    POST to http://localhost:4567/analyze whose single field [url] is the
    trimmed form of a typed line that is neither blank nor the exit
    command. *)
Theorem X2_requests_come_from_lines (stdin : list InputEvent) (w : World) :
  (List.length (posts (events_of (loop stdin) w)) <= List.length stdin)%nat
  /\ forall r,
       In r (posts (events_of (loop stdin) w)) ->
       exists line,
         In (Line line) stdin
         /\ is_exit line = false
         /\ PyStr.strip line <> ""
         /\ r = mkRequest POST "http://localhost:4567/analyze"
                          [("url", PyStr.strip line)].
Proof.
  destruct (loop_posts_origin stdin w) as [evs [E [B O]]].
  rewrite (events_of_out _ _ _ E). split; [exact B | exact O].
Qed.

(** X3: when the HTTP call for a line raises something that is not an
    instance of [Exception] (an interrupt), the handler lets it through: the
    request has been issued, nothing is printed for it, the exception leaves
    the loop and [main], and the input still to come is not read. *)
Theorem X3_interrupt_during_request
        (line : string) (rest : list InputEvent) (w : World) (e : exn) :
  PyStr.strip line <> "" ->
  is_exit line = false ->
  next_outcome w (PyStr.strip line) = PostRaises e ->
  exn_is_Exception e = false ->
  loop (Line line :: rest) w =
    (Raise e,
     extend w [EvPrompt "URL: "; EvPost (request_for (PyStr.strip line))])
  /\ main (Line line :: rest) w =
     (Raise e,
      extend w [EvPrint "Enter a URL to analyze (or type 'exit' to quit):";
                EvPrompt "URL: ";
                EvPost (request_for (PyStr.strip line))]).
Proof.
  intros Hb Hx Hn He.
  assert (G : forall w0,
             next_outcome w0 (PyStr.strip line) = PostRaises e ->
             loop (Line line :: rest) w0 =
             (Raise e,
              extend w0 [EvPrompt "URL: ";
                         EvPost (request_for (PyStr.strip line))])).
  { intros w0 H0. rewrite loop_cons, (loop_body_send line w0 Hx Hb).
    rewrite (send_uncaught _ _ e); [|rewrite next_outcome_prompt; exact H0
                                    |exact He].
    rewrite extend_extend. reflexivity. }
  split; [apply G, Hn|].
  rewrite main_loop, G.
  - rewrite extend_extend. reflexivity.
  - rewrite next_outcome_quiet by reflexivity. exact Hn.
Qed.

Lemma X3_interrupt_during_request_witness :
  main [Line "http://example.com/mod"; Line "exit"]
       (fresh endpoint_interrupted) =
  (Raise KeyboardInterrupt,
   extend (fresh endpoint_interrupted)
          [EvPrint "Enter a URL to analyze (or type 'exit' to quit):";
           EvPrompt "URL: ";
           EvPost (request_for "http://example.com/mod")]).
Proof.
  apply (X3_interrupt_during_request "http://example.com/mod" [Line "exit"]
           (fresh endpoint_interrupted) KeyboardInterrupt);
    [discriminate | reflexivity | reflexivity | reflexivity].
Defined.

(** X4: the lines that end the loop are exactly those whose trimmed form has
    four characters, an [e], an [x], an [i] and a [t] in this order, each in
    either case; nothing else counts as the exit command. *)
Theorem X4_exit_spellings (line : string) (w : World) :
  fst (loop_body (Line line) w) = Ok Terminated <->
  exists a b c d,
    PyStr.strip line = String a (String b (String c (String d "")))
    /\ (a = "e" \/ a = "E")%char /\ (b = "x" \/ b = "X")%char
    /\ (c = "i" \/ c = "I")%char /\ (d = "t" \/ d = "T")%char.
Proof.
  rewrite <- PyStrMore.lower_exit_iff. split.
  - intros H. destruct (loop_body_terminated _ _ H) as [l [[= <-] Hx]].
    apply String.eqb_eq. exact Hx.
  - intros H. apply String.eqb_eq in H.
    rewrite (loop_body_exit line w H). reflexivity.
Qed.

(** X5: a pass issues no request exactly when the line is the exit command
    or consists of whitespace only (the empty line included); a
    whitespace-only line gets the retry message. *)
Theorem X5_lines_not_sent (line : string) (w : World) :
  (posts (events_of (loop_body (Line line)) w) = [] <->
   is_exit line = true \/ PyStr.all_space line = true)
  /\ (PyStr.all_space line = true ->
      loop_body (Line line) w =
      (Ok AwaitingInput,
       extend w [EvPrompt "URL: "; EvPrint "Please enter a valid URL."])).
Proof.
  split.
  - destruct (loop_body_line_posts line w) as [r [evs [E P]]].
    rewrite (events_of_extend _ _ _ _ E), P.
    rewrite <- PyStrMore.strip_empty_iff.
    destruct (is_exit line); [split; auto|].
    destruct (PyStr.strip line); simpl; split; auto;
      intros H; try discriminate; destruct H; discriminate.
  - intros H. apply PyStrMore.strip_empty_iff in H.
    apply (loop_body_blank line w H).
Qed.

(** X6: whitespace typed around a string that has none at its ends changes
    nothing: the trimmed form is that string, and the pass is the one for the
    string typed bare. *)
Theorem X6_padding_is_ignored (pre core post : string) (w : World) :
  PyStr.all_space pre = true ->
  PyStr.all_space post = true ->
  (forall c, PyStr.first_char core = Some c -> PyStr.isspace c = false) ->
  (forall c, PyStr.last_char core = Some c -> PyStr.isspace c = false) ->
  PyStr.strip (pre ++ core ++ post) = core
  /\ loop_body (Line (pre ++ core ++ post)) w = loop_body (Line core) w.
Proof.
  intros Hpre Hpost F L.
  pose proof (PyStrMore.strip_padded pre core post Hpre Hpost F L) as S.
  split; [exact S|]. apply loop_body_strip. rewrite S.
  unfold PyStr.strip. rewrite (PyStrFacts.lstrip_id _ F).
  symmetry. apply PyStrFacts.rstrip_id, L.
Qed.

Lemma X6_padding_is_ignored_witness :
  PyStr.strip ("   " ++ "http://a/b c" ++ "  ") = "http://a/b c"
  /\ loop_body (Line ("   " ++ "http://a/b c" ++ "  ")) (fresh endpoint_404) =
     loop_body (Line "http://a/b c") (fresh endpoint_404).
Proof.
  apply (X6_padding_is_ignored "   " "http://a/b c" "  " (fresh endpoint_404));
    try reflexivity; intros c [= <-]; reflexivity.
Defined.

(** X7: once the loop has ended, by the exit command or by an exception that
    escapes, input that follows is not read: the run is the same with or
    without it. *)
Theorem X7_input_after_the_end_is_not_read
        (stdin more : list InputEvent) (w : World) :
  fst (loop stdin w) <> Ok AwaitingInput ->
  loop (stdin ++ more) w = loop stdin w.
Proof.
  revert w; induction stdin as [|ev rest IH]; intros w H.
  - exfalso. apply H. reflexivity.
  - simpl app. rewrite !loop_cons in *.
    destruct (loop_body ev w) as [[[|]|e] w']; try reflexivity.
    apply IH, H.
Qed.

Lemma X7_input_after_the_end_is_not_read_witness :
  loop ([Line "a"; Line " exit "] ++ [Line "b"; InputRaises EOFError])
       (fresh endpoint_safe) =
  loop [Line "a"; Line " exit "] (fresh endpoint_safe).
Proof.
  apply (X7_input_after_the_end_is_not_read
           [Line "a"; Line " exit "] [Line "b"; InputRaises EOFError]
           (fresh endpoint_safe)).
  discriminate.
Defined.

(** X8: the last events of a run tell how it stands.  After [break] they are
    the prompt and the farewell; while the program waits, the prompt; and
    when an exception escapes, either [input] raised it and the prompt is
    the last event, or it comes from an HTTP call that raised and the request
    is the last event: the call raised something that is not an instance of
    [Exception], or it raised an instance whose description the console
    cannot write and the escaping exception is the encoding error of the
    handler's line.  Nothing is printed after an exception that escapes. *)
Theorem X8_last_events_tell_the_state (stdin : list InputEvent) (w : World) :
  exists evs,
    snd (loop stdin w) = extend w evs
    /\ match fst (loop stdin w) with
       | Ok Terminated =>
           exists pre, evs = pre ++ [EvPrompt "URL: "; EvPrint "Exiting..."]
       | Ok AwaitingInput =>
           exists pre, evs = pre ++ [EvPrompt "URL: "]
       | Raise e =>
           (In (InputRaises e) stdin
            /\ exists pre, evs = pre ++ [EvPrompt "URL: "])
           \/ (exists pre url n e0,
                  network w n (request_for url) = PostRaises e0
                  /\ evs = pre ++ [EvPrompt "URL: "; EvPost (request_for url)]
                  /\ ((exn_is_Exception e0 = false /\ e = e0)
                      \/ (exn_is_Exception e0 = true
                          /\ writable (console w) (exn_str e0) = false
                          /\ e = UnicodeEncodeError
                                   (console w)
                                   ("An error occurred: " ++ exn_str e0))))
       end.
Proof.
  revert w; induction stdin as [|ev rest IH]; intros w.
  - exists [EvPrompt "URL: "]. split; [reflexivity|]. exists []. reflexivity.
  - assert (Go : forall a,
               loop_body ev w = (Ok AwaitingInput, extend w a) ->
               exists evs,
                 snd (loop (ev :: rest) w) = extend w evs
                 /\ match fst (loop (ev :: rest) w) with
                    | Ok Terminated =>
                        exists pre,
                          evs = pre ++ [EvPrompt "URL: "; EvPrint "Exiting..."]
                    | Ok AwaitingInput =>
                        exists pre, evs = pre ++ [EvPrompt "URL: "]
                    | Raise e =>
                        (In (InputRaises e) (ev :: rest)
                         /\ exists pre, evs = pre ++ [EvPrompt "URL: "])
                        \/ (exists pre url n e0,
                               network w n (request_for url) = PostRaises e0
                               /\ evs = pre ++ [EvPrompt "URL: ";
                                                EvPost (request_for url)]
                               /\ ((exn_is_Exception e0 = false /\ e = e0)
                                   \/ (exn_is_Exception e0 = true
                                       /\ writable (console w) (exn_str e0)
                                          = false
                                       /\ e = UnicodeEncodeError
                                                (console w)
                                                ("An error occurred: "
                                                 ++ exn_str e0))))
                    end).
    { intros a E. rewrite (loop_continue ev rest w _ E).
      destruct (IH (extend w a)) as [evs [E' M]].
      exists (a ++ evs). rewrite E', extend_extend. split; [reflexivity|].
      destruct (fst (loop rest (extend w a))) as [[|]|e].
      - destruct M as [pre ->]. exists (a ++ pre). apply app_assoc.
      - destruct M as [pre ->]. exists (a ++ pre). apply app_assoc.
      - destruct M as [[I [pre ->]] | [pre [url [n [e0 [N [-> C]]]]]]].
        + left. split; [right; exact I|]. exists (a ++ pre). apply app_assoc.
        + right. exists (a ++ pre), url, n, e0.
          split; [exact N|]. split; [apply app_assoc | exact C]. }
    destruct ev as [l|e].
    + destruct (loop_body_line_cases l w)
        as [[Hx E] | [[Hx [Hb E]] | [[Hx [Hb [ls E]]]
                                    | [Hx [Hb [e [e0 [E [N C]]]]]]]]].
      * rewrite (loop_break _ rest _ _ E). eexists. split; [reflexivity|].
        exists []. reflexivity.
      * apply (Go _ E).
      * apply (Go _ E).
      * rewrite loop_cons, E. eexists. split; [reflexivity|].
        right. exists [], (PyStr.strip l), (List.length (posts (out w))), e0.
        split; [exact N|]. split; [reflexivity | exact C].
    + exists [EvPrompt "URL: "]. split; [reflexivity|].
      left. split; [left; reflexivity|]. exists []. reflexivity.
Qed.

(** X9: how the body of a 200 response comes out.  A body of whitespace only
    (the empty body included) is printed as an empty line between the
    delimiters; a body without whitespace at its ends that the console can
    write is printed as it is, inner whitespace and line breaks included;
    and when the console cannot write the trimmed body, the header and one
    delimiter are followed by the error line of the handler. *)
Theorem X9_response_body_as_printed (url : string) (w : World) (r : Response) :
  next_outcome w url = Responds r ->
  status_code r = 200%Z ->
  (PyStr.all_space (text r) = true ->
   printed (events_of (send_url_to_server url) w) =
   ["Server Response:"; dashes; ""; dashes])
  /\ ((forall c, PyStr.first_char (text r) = Some c -> PyStr.isspace c = false) ->
      (forall c, PyStr.last_char (text r) = Some c -> PyStr.isspace c = false) ->
      writable (console w) (text r) = true ->
      printed (events_of (send_url_to_server url) w) =
      ["Server Response:"; dashes; text r; dashes])
  /\ (writable (console w) (PyStr.strip (text r)) = false ->
      printed (events_of (send_url_to_server url) w) =
      ["Server Response:"; dashes;
       ("An error occurred: "
        ++ exn_str (UnicodeEncodeError (console w)
                                       (PyStr.strip (text r))))%string]).
Proof.
  intros Hn Hs. rewrite send_printed, Hn, Hs.
  change (200 =? 200)%Z with true. cbv iota. split; [|split].
  - intros H. apply PyStrMore.strip_empty_iff in H. rewrite H. reflexivity.
  - intros F L Hw. unfold PyStr.strip.
    rewrite (PyStrFacts.lstrip_id _ F), (PyStrFacts.rstrip_id _ L), Hw.
    reflexivity.
  - intros Hw. rewrite Hw. reflexivity.
Qed.

Lemma X9_response_body_as_printed_witness :
  printed (events_of (send_url_to_server "http://example.com/mod")
                     (fresh endpoint_blank)) =
    ["Server Response:"; dashes; ""; dashes]
  /\ printed (events_of (send_url_to_server "http://example.com/mod")
                        (fresh_on AsciiConsole endpoint_accented)) =
     ["Server Response:"; dashes;
      "An error occurred: 'ascii' codec can't encode character '\xe9' in position 1: ordinal not in range(128)"].
Proof.
  split.
  - apply (X9_response_body_as_printed "http://example.com/mod"
             (fresh endpoint_blank) (mkResponse 200 "   "));
      reflexivity.
  - apply (proj2 (proj2 (X9_response_body_as_printed
                           "http://example.com/mod"
                           (fresh_on AsciiConsole endpoint_accented)
                           _ eq_refl eq_refl))).
    reflexivity.
Defined.

(** Two worlds with the same endpoint and the same number of requests behind
    them get the same answer to the next request. *)
Lemma next_outcome_same (w1 w2 : World) (url : string) :
  network w1 = network w2 ->
  List.length (posts (out w1)) = List.length (posts (out w2)) ->
  next_outcome w1 url = next_outcome w2 url.
Proof. unfold next_outcome. intros -> ->. reflexivity. Qed.

Lemma send_same (url : string) (w1 w2 : World) :
  console w1 = console w2 ->
  next_outcome w1 url = next_outcome w2 url ->
  exists r evs,
    send_url_to_server url w1 = (r, extend w1 evs)
    /\ send_url_to_server url w2 = (r, extend w2 evs).
Proof.
  intros C N. destruct (next_outcome w1 url) as [resp|e] eqn:H1; symmetry in N.
  - destruct (Z.eq_dec (status_code resp) 200) as [Hs|Hs].
    + destruct (writable (console w1) (PyStr.strip (text resp))) eqn:Hw.
      * rewrite (send_ok_200 url w1 resp H1 Hs Hw).
        rewrite C in Hw. rewrite (send_ok_200 url w2 resp N Hs Hw).
        eexists _, _. split; reflexivity.
      * rewrite (send_ok_200_unwritable url w1 resp H1 Hs Hw).
        rewrite C in Hw |- *.
        rewrite (send_ok_200_unwritable url w2 resp N Hs Hw).
        eexists _, _. split; reflexivity.
    + rewrite (send_ok_other url w1 resp H1 Hs),
        (send_ok_other url w2 resp N Hs).
      eexists _, _. split; reflexivity.
  - destruct (exn_is_Exception e) eqn:He.
    + destruct (writable (console w1) (exn_str e)) eqn:Hw.
      * rewrite (send_caught url w1 e H1 He Hw).
        rewrite C in Hw. rewrite (send_caught url w2 e N He Hw).
        eexists _, _. split; reflexivity.
      * rewrite (send_handler_fails url w1 e H1 He Hw).
        rewrite C in Hw |- *.
        rewrite (send_handler_fails url w2 e N He Hw).
        eexists _, _. split; reflexivity.
    + rewrite (send_uncaught url w1 e H1 He), (send_uncaught url w2 e N He).
      eexists _, _. split; reflexivity.
Qed.

Lemma loop_body_same (ev : InputEvent) (w1 w2 : World) :
  network w1 = network w2 ->
  console w1 = console w2 ->
  List.length (posts (out w1)) = List.length (posts (out w2)) ->
  exists r evs,
    loop_body ev w1 = (r, extend w1 evs)
    /\ loop_body ev w2 = (r, extend w2 evs).
Proof.
  intros Hn Hcon Hc. destruct ev as [l|e].
  - destruct (is_exit l) eqn:Hx.
    { rewrite (loop_body_exit l w1 Hx), (loop_body_exit l w2 Hx).
      eexists _, _. split; reflexivity. }
    destruct (string_dec (PyStr.strip l) "") as [Hb|Hb].
    { rewrite (loop_body_blank l w1 Hb), (loop_body_blank l w2 Hb).
      eexists _, _. split; reflexivity. }
    rewrite (loop_body_send l w1 Hx Hb), (loop_body_send l w2 Hx Hb).
    destruct (send_same (PyStr.strip l)
                (extend w1 [EvPrompt "URL: "]) (extend w2 [EvPrompt "URL: "]))
      as [r [evs [E1 E2]]].
    { exact Hcon. }
    { rewrite !next_outcome_prompt. apply next_outcome_same; assumption. }
    rewrite E1, E2, !extend_extend.
    destruct r as [u|e]; eexists _, _; split; reflexivity.
  - exists (Raise e), [EvPrompt "URL: "]. split; reflexivity.
Qed.

(** The loop reads the world only through the endpoint, the console's
    encoding and the number of requests already issued. *)
Lemma loop_same (stdin : list InputEvent) (w1 w2 : World) :
  network w1 = network w2 ->
  console w1 = console w2 ->
  List.length (posts (out w1)) = List.length (posts (out w2)) ->
  exists r evs,
    loop stdin w1 = (r, extend w1 evs)
    /\ loop stdin w2 = (r, extend w2 evs).
Proof.
  revert w1 w2; induction stdin as [|ev rest IH]; intros w1 w2 Hn Hcon Hc.
  - exists (Ok AwaitingInput), [EvPrompt "URL: "]. split; reflexivity.
  - rewrite !loop_cons.
    destruct (loop_body_same ev w1 w2 Hn Hcon Hc) as [r [evs [E1 E2]]].
    rewrite E1, E2.
    destruct r as [[|]|e]; try (eexists _, _; split; reflexivity).
    destruct (IH (extend w1 evs) (extend w2 evs)) as [r' [evs' [F1 F2]]].
    + exact Hn.
    + exact Hcon.
    + rewrite !out_extend, !posts_app, !length_app, Hc. reflexivity.
    + rewrite F1, F2, !extend_extend. eexists _, _. split; reflexivity.
Qed.

(** While the loop is waiting after the events [pre], it has added some
    events and the prompt, and any further input is handled from there. *)
Lemma loop_app_extend (pre : list InputEvent) (w : World) :
  fst (loop pre w) = Ok AwaitingInput ->
  exists evs,
    snd (loop pre w) = extend w (evs ++ [EvPrompt "URL: "])
    /\ forall tail, loop (pre ++ tail) w = loop tail (extend w evs).
Proof.
  revert w; induction pre as [|ev rest IH]; intros w H.
  - exists []. split; [reflexivity|]. intros tail. simpl app.
    unfold extend. rewrite app_nil_r. destruct w; reflexivity.
  - rewrite loop_cons in H.
    destruct (loop_body_shape ev w) as [r [evs [E _]]].
    rewrite E in H. destruct r as [[|]|e]; try discriminate.
    destruct (IH _ H) as [evs' [E' T]].
    exists ((EvPrompt "URL: " :: evs) ++ evs'). split.
    + rewrite (loop_continue ev rest w _ E), E', extend_extend, app_assoc.
      reflexivity.
    + intros tail. simpl app at 1.
      rewrite (loop_continue ev _ w _ E), T, extend_extend. reflexivity.
Qed.

(** X10: the program carries nothing from one pass to the next.  When the
    loop is waiting after some input, what it does with the input that
    follows (the way it ends, the events it adds) is what the loop does with
    that input alone, started in any world that has the same endpoint, the
    same console encoding and as many requests already issued: what was
    typed, sent, answered or printed before changes nothing. *)
Theorem X10_later_passes_start_afresh
        (pre rest : list InputEvent) (w w2 : World) :
  fst (loop pre w) = Ok AwaitingInput ->
  network w2 = network w ->
  console w2 = console w ->
  List.length (posts (out w2)) =
  List.length (posts (out (snd (loop pre w)))) ->
  fst (loop (pre ++ rest) w) = fst (loop rest w2)
  /\ exists evs,
       events_of (loop pre) w = evs ++ [EvPrompt "URL: "]
       /\ events_of (loop (pre ++ rest)) w = evs ++ events_of (loop rest) w2.
Proof.
  intros H Hn Hcon Hc.
  destruct (loop_app_extend pre w H) as [evs [E T]].
  rewrite E, out_extend, !posts_app in Hc. simpl in Hc.
  rewrite app_nil_r, <- posts_app in Hc.
  destruct (loop_same rest (extend w evs) w2) as [r [evs' [F1 F2]]];
    [symmetry; exact Hn | symmetry; exact Hcon | symmetry; exact Hc |].
  rewrite T, F1, F2. split; [reflexivity|]. exists evs. split.
  - apply events_of_out. exact E.
  - rewrite (events_of_extend _ _ _ _ F2).
    unfold events_of. rewrite T, F1. simpl snd.
    rewrite extend_extend, out_extend. apply skipn_length_app.
Qed.

Lemma X10_later_passes_start_afresh_witness :
  fst (loop ([Line "http://a"] ++ [Line "http://a"; Line "exit"])
            (fresh endpoint_404)) =
  fst (loop [Line "http://a"; Line "exit"]
            (mkWorld endpoint_404 UnicodeConsole
                     [EvPost (request_for "http://b")]))
  /\ exists evs,
       events_of (loop [Line "http://a"]) (fresh endpoint_404) =
         evs ++ [EvPrompt "URL: "]
       /\ events_of (loop ([Line "http://a"] ++ [Line "http://a"; Line "exit"]))
                    (fresh endpoint_404) =
          evs ++ events_of (loop [Line "http://a"; Line "exit"])
                           (mkWorld endpoint_404 UnicodeConsole
                                    [EvPost (request_for "http://b")]).
Proof.
  apply (X10_later_passes_start_afresh
           [Line "http://a"] [Line "http://a"; Line "exit"]
           (fresh endpoint_404)
           (mkWorld endpoint_404 UnicodeConsole
                    [EvPost (request_for "http://b")]));
    reflexivity.
Defined.
